(** * Finance ML service: detection pipeline

    A shallow embedding of the two detection services of the repository,

    - [ml-service/main.py]: the rule-only service (pattern table, category
      table, z-score scorer, three endpoints), embedded in [Module MlService];
    - [python-ml/app]: the LLM-backed service (configuration, response models,
      the three detectors and the batch helper), embedded in the modules
      [Config], [Models], [Anomaly], [Category] and [Merchant].

    Conventions of the embedding.

    - A Python [float] is read as a real number: rounding, infinities and NaN
      are not modelled.  Comparisons of floats become the decidable
      comparisons of [R].  [Module Float64] repeats the python-ml anomaly
      detector over IEEE doubles, to run it where that reading breaks down
      (overflow).
    - A Python [str] is a [string]; descriptions are taken to be ASCII.
    - Messages built with f-strings that interpolate floats are kept as
      structured values carrying the interpolated numbers.
    - The python-ml code logs through [structlog] and awaits an external
      provider; both are threaded through an explicit [World]. *)

From Stdlib Require Import Reals Lra Lia ZArith List Bool Ascii String.
From Stdlib Require Floats.PrimFloat.
From stdpp Require Import base option gmap strings.
Import ListNotations.

Local Open Scope string_scope.
Local Open Scope R_scope.

(** ** Numeric helpers shared by both services *)

Module Stats.

(** [sum(xs)] *)
Definition rsum (xs : list R) : R := fold_right Rplus 0 xs.

(** [len(xs)] as a float *)
Definition rlen (xs : list R) : R := INR (length xs).

(** [numpy.mean] and [statistics.mean]: arithmetic mean. *)
Definition mean (xs : list R) : R := rsum xs / rlen xs.

(** Sum of squared deviations from the mean. *)
Definition sq_dev (xs : list R) : R :=
  rsum (map (fun x => (x - mean xs) * (x - mean xs)) xs).

(** [numpy.std] with its default [ddof=0]: population estimator. *)
Definition np_std (xs : list R) : R := sqrt (sq_dev xs / rlen xs).

(** [statistics.stdev]: sample estimator (divisor [n - 1]). *)
Definition stdev (xs : list R) : R := sqrt (sq_dev xs / (rlen xs - 1)).

End Stats.

(** ** Python float comparisons, as booleans *)

Module PyFloat.

(** [x == y] *)
Definition eqb (x y : R) : bool := if Req_dec_T x y then true else false.
(** [x != y] *)
Definition neqb (x y : R) : bool := negb (eqb x y).
(** [x > y] *)
Definition gtb (x y : R) : bool := if Rgt_dec x y then true else false.
(** [x >= y] *)
Definition geb (x y : R) : bool := if Rge_dec x y then true else false.
(** [x <= y] *)
Definition leb (x y : R) : bool := if Rle_dec x y then true else false.

(** [min(a, b)]: Python keeps the first argument unless a later one is
    strictly smaller. *)
Definition min (a b : R) : R := if Rlt_dec b a then b else a.

(** [abs(x)] *)
Definition abs (x : R) : R := Rabs x.

End PyFloat.

(** ** Python string methods used by the pattern matcher *)

Module PyStr.
Local Open Scope nat_scope.

(** [c.upper()] for an ASCII character. *)
Definition upper_char (c : ascii) : ascii :=
  let n := nat_of_ascii c in
  if (97 <=? n) && (n <=? 122) then ascii_of_nat (n - 32) else c.

(** [c.lower()] for an ASCII character. *)
Definition lower_char (c : ascii) : ascii :=
  let n := nat_of_ascii c in
  if (65 <=? n) && (n <=? 90) then ascii_of_nat (n + 32) else c.

(** [s.upper()] *)
Fixpoint upper (s : string) : string :=
  match s with
  | EmptyString => EmptyString
  | String c s' => String (upper_char c) (upper s')
  end.

(** [s.lower()] *)
Fixpoint lower (s : string) : string :=
  match s with
  | EmptyString => EmptyString
  | String c s' => String (lower_char c) (lower s')
  end.

(** [c.isspace()] for an ASCII character: tab, line feed, vertical tab,
    form feed, carriage return, the four separators 28..31, and space. *)
Definition isspace (c : ascii) : bool :=
  let n := nat_of_ascii c in
  ((9 <=? n) && (n <=? 13)) || ((28 <=? n) && (n <=? 32)).

(** [pat in s]: substring test. *)
Fixpoint contains (pat s : string) : bool :=
  String.prefix pat s ||
  match s with
  | EmptyString => false
  | String _ s' => contains pat s'
  end.

Definition is_empty (s : string) : bool :=
  match s with EmptyString => true | _ => false end.

(** [s.split()]: split on runs of whitespace, dropping empty words.
    [cur] is the word being read. *)
Fixpoint split_from (cur s : string) : list string :=
  match s with
  | EmptyString => if is_empty cur then [] else [cur]
  | String c s' =>
      if isspace c
      then (if is_empty cur then split_from EmptyString s'
            else cur :: split_from EmptyString s')
      else split_from (cur ++ String c EmptyString)%string s'
  end.

Definition split (s : string) : list string := split_from EmptyString s.

End PyStr.

(** ** ml-service/main.py: the rule-only service *)

Module MlService.

(** *** Data models *)

Module Transaction.
Record t := mk {
  id : string;
  description : string;
  amount : R;
  date : string
}.
End Transaction.

Module MerchantDetectionResponse.
Record t := mk {
  merchant : string;
  confidence : R;
  method : string
}.
End MerchantDetectionResponse.

Module CategoryDetectionResponse.
Record t := mk {
  category : string;
  confidence : R;
  method : string
}.
End CategoryDetectionResponse.

(** The [reason] strings of the scorer; the two formatted ones keep the
    numbers they interpolate. *)
Inductive Reason :=
| Insufficient_historical_data
    (* "Insufficient historical data" *)
| Differs_from_constant (amount mean : R)
    (* f"Amount ${amount:.2f} differs from constant ${mean:.2f}" *)
| Std_devs_from_mean (amount z_score mean : R).
    (* f"Amount ${amount:.2f} is {z_score:.1f} std devs from mean ${mean:.2f}" *)

Module AnomalyDetectionResponse.
Record t := mk {
  is_anomaly : bool;
  anomaly_score : R;
  confidence : R;
  method : string;
  reason : option Reason
}.
End AnomalyDetectionResponse.

Module AnomalyRequest.
Record t := mk {
  transaction : Transaction.t;
  historical_amounts : list R
}.
End AnomalyRequest.

(** *** Business logic *)

(** A Python dict iterates in insertion order; the pattern loop depends on
    it, so the table is an association list. *)
Definition MERCHANT_PATTERNS : list (string * string) :=
  [ ("STARBUCKS", "starbucks");
    ("AMAZON", "amazon");
    ("UBER", "uber");
    ("NETFLIX", "netflix");
    ("SPOTIFY", "spotify");
    ("TARGET", "target");
    ("WALMART", "walmart") ].

Definition CATEGORY_RULES : gmap string string :=
  list_to_map
    [ ("starbucks", "cafe");
      ("amazon", "online-shopping");
      ("uber", "transportation");
      ("netflix", "entertainment");
      ("spotify", "entertainment");
      ("target", "retail");
      ("walmart", "retail") ].

(** The [for pattern, merchant in MERCHANT_PATTERNS.items()] loop with its
    early [return]; [None] when the loop runs to its end. *)
Fixpoint match_patterns (patterns : list (string * string))
         (description_upper : string) : option (string * R) :=
  match patterns with
  | [] => None
  | (pattern, merchant) :: rest =>
      if PyStr.contains pattern description_upper
      then Some (merchant, 0.95)
      else match_patterns rest description_upper
  end.

Definition detect_merchant_simple (description : string) : string * R :=
  let description_upper := PyStr.upper description in
  match match_patterns MERCHANT_PATTERNS description_upper with
  | Some r => r
  | None =>
      let first_word :=
        match PyStr.split description with
        | w :: _ => w
        | [] => "UNKNOWN"
        end in
      (PyStr.lower first_word, 0.30)
  end.

Definition detect_category_simple (merchant : string) : string * R :=
  match CATEGORY_RULES !! merchant with
  | Some category => (category, 0.95)
  | None => ("uncategorized", 0.30)
  end.

Definition detect_anomaly_zscore (amount : R) (historical_amounts : list R)
  : bool * R * option Reason :=
  if (length historical_amounts <? 3)%nat
  then (false, 0.0, Some Insufficient_historical_data)
  else
    let mean := Stats.mean historical_amounts in
    let stdev := Stats.stdev historical_amounts in
    if PyFloat.eqb stdev 0 then
      let is_anomaly := PyFloat.neqb amount mean in
      let score := if is_anomaly then 1.0 else 0.0 in
      let reason :=
        if is_anomaly then Some (Differs_from_constant amount mean) else None in
      (is_anomaly, score, reason)
    else
      let z_score := PyFloat.abs ((amount - mean) / stdev) in
      let is_anomaly := PyFloat.gtb z_score 2.0 in
      let anomaly_score := PyFloat.min (z_score / 3.0) 1.0 in
      let reason :=
        if is_anomaly then Some (Std_devs_from_mean amount z_score mean) else None in
      (is_anomaly, anomaly_score, reason).

(** *** API endpoints *)

Definition detect_merchant (transaction : Transaction.t)
  : MerchantDetectionResponse.t :=
  let '(merchant, confidence) :=
    detect_merchant_simple (Transaction.description transaction) in
  MerchantDetectionResponse.mk merchant confidence "pattern-matching".

Definition detect_category (transaction : Transaction.t)
           (merchant : option string) : CategoryDetectionResponse.t :=
  (* [if not merchant]: [None] and the empty string are both falsy *)
  let merchant :=
    match merchant with
    | Some m =>
        if PyStr.is_empty m
        then fst (detect_merchant_simple (Transaction.description transaction))
        else m
    | None => fst (detect_merchant_simple (Transaction.description transaction))
    end in
  let '(category, confidence) := detect_category_simple merchant in
  CategoryDetectionResponse.mk category confidence "rules".

Definition detect_anomaly (request : AnomalyRequest.t)
  : AnomalyDetectionResponse.t :=
  let '(is_anomaly, score, reason) :=
    detect_anomaly_zscore
      (Transaction.amount (AnomalyRequest.transaction request))
      (AnomalyRequest.historical_amounts request) in
  AnomalyDetectionResponse.mk
    is_anomaly score
    (if (10 <=? length (AnomalyRequest.historical_amounts request))%nat
     then 0.85 else 0.60)
    "zscore" reason.

End MlService.

(** ** python-ml/app: the LLM-backed service *)

(** *** config.py *)

Module Config.

Inductive Provider := openai | anthropic.

Record Settings := mk {
  service_name : string;
  service_version : string;
  llm_provider : Provider;
  openai_api_key : string;
  openai_model : string;
  anthropic_api_key : string;
  anthropic_model : string;
  merchant_confidence_threshold : R;
  category_confidence_threshold : R;
  anomaly_threshold : R
}.

(** The field defaults of [class Settings]. *)
Definition defaults : Settings :=
  {| service_name := "finance-ml-service";
     service_version := "v1.0.0";
     llm_provider := openai;
     openai_api_key := EmptyString;
     openai_model := "gpt-4-turbo-preview";
     anthropic_api_key := EmptyString;
     anthropic_model := "claude-3-sonnet-20240229";
     merchant_confidence_threshold := 0.70;
     category_confidence_threshold := 0.70;
     anomaly_threshold := 2.5 |}.

End Config.

(** *** The Python runtime the detectors run in: exceptions, JSON values,
    the provider, the log *)

Module Py.

Inductive Exn :=
| APIError (msg : string)       (* raised by the provider client, or while
                                   picking the text out of its response *)
| JSONDecodeError               (* [json.loads] *)
| KeyError (key : string)       (* [result["k"]] on a dict without [k] *)
| TypeError                     (* [result["k"]] on a non-dict *)
| AttributeError                (* [result.get] on a non-dict *)
| IndexError                    (* [transactions[i]] out of range *)
| ValidationError.              (* pydantic, one error for all fields *)

(** What [json.loads] returns. *)
#[warnings="-register-all"]
Inductive json :=
| JNull
| JBool (b : bool)
| JNumber (x : R)
| JString (s : string)
| JArray (items : list json)
| JObject (fields : gmap string json).

(** The prompts are f-strings over transaction fields; a prompt is kept as
    the fields it interpolates. *)
Inductive Prompt :=
| MerchantPrompt (description : string) (amount : R) (date : string)
| CategoryPrompt (merchant description : string) (amount : R).

(** One request to a provider client. *)
Inductive Request :=
| OpenAIChatCompletion (model system : string) (user : Prompt)
    (* temperature=0.0, response_format={"type": "json_object"} *)
| AnthropicMessage (model : string) (max_tokens : Z) (user : Prompt).

Inductive Level := info | error.

(** A structlog record: level, event name and the [transaction_id] and
    [error] keys where the call passes them (other keys are dropped). *)
Record LogRecord := mkLog {
  level : Level;
  event : string;
  transaction_id : option string;
  err : option Exn
}.

(** What lies outside the repository.
    - [llm n req]: the outcome of the [n]-th provider call of the process,
      either the text of the completion or the exception raised;
    - [json_loads]: the JSON parser, [None] for a text that is not JSON;
    - [validate_str], [validate_float]: pydantic's coercion of an untyped
      value to a [str] and a [float] field, [None] when it rejects it.
      A string is a valid [str], a number is a valid [float]. *)
Class Outside := {
  llm : nat -> Request -> Exn + string;
  json_loads : string -> option json;
  validate_str : json -> option string;
  validate_float : json -> option R;
  validate_str_string : forall s, validate_str (JString s) = Some s;
  validate_float_number : forall x, validate_float (JNumber x) = Some x
}.

(** The mutable world: the provider calls made so far and the log. *)
Record World := mkWorld {
  calls : list Request;
  log : list LogRecord
}.

(** A coroutine or function that may raise, run against the world. *)
Definition M (A : Type) : Type := World -> (Exn + A) * World.

Definition ret {A} (a : A) : M A := fun w => (inr a, w).

Definition raise {A} (e : Exn) : M A := fun w => (inl e, w).

Definition bind {A B} (m : M A) (k : A -> M B) : M B :=
  fun w =>
    match m w with
    | (inr a, w') => k a w'
    | (inl e, w') => (inl e, w')
    end.

#[global] Instance M_ret : MRet M := @ret.
#[global] Instance M_bind : MBind M := fun A B k m => bind m k.

(** [try: body except Exception as e: handler(e)] *)
Definition try_except {A} (body : M A) (handler : Exn -> M A) : M A :=
  fun w =>
    match body w with
    | (inr a, w') => (inr a, w')
    | (inl e, w') => handler e w'
    end.

(** Sequencing of two steps that may raise. *)
Definition and_then {A B} (r : Exn + A) (k : A -> Exn + B) : Exn + B :=
  match r with
  | inr a => k a
  | inl e => inl e
  end.

(** A value or exception computed without touching the world. *)
Definition lift {A} (r : Exn + A) : M A := fun w => (r, w).

Definition logger (lvl : Level) (ev : string) (tid : option string)
           (e : option Exn) : M unit :=
  fun w => (inr tt, mkWorld (calls w) (log w ++ [mkLog lvl ev tid e])).

Definition logger_info (ev : string) (tid : string) : M unit :=
  logger info ev (Some tid) None.

Definition logger_error (ev : string) (tid : string) (e : Exn) : M unit :=
  logger error ev (Some tid) (Some e).

(** [await client....create(...)] followed by picking the text content. *)
Definition await_llm `{Outside} (req : Request) : M string :=
  fun w =>
    (llm (length (calls w)) req, mkWorld (calls w ++ [req]) (log w)).

(** [json.loads(content)] *)
Definition loads `{Outside} (content : string) : Exn + json :=
  match json_loads content with
  | Some v => inr v
  | None => inl JSONDecodeError
  end.

(** [result[key]] *)
Definition getitem (result : json) (key : string) : Exn + json :=
  match result with
  | JObject fields =>
      match fields !! key with
      | Some v => inr v
      | None => inl (KeyError key)
      end
  | _ => inl TypeError
  end.

(** [result.get(key)] *)
Definition get (result : json) (key : string) : Exn + option json :=
  match result with
  | JObject fields => inr (fields !! key)
  | _ => inl AttributeError
  end.

(** [asyncio.gather] with [return_exceptions=True]: every task runs, and
    its value or its exception is put at the task's position.  The tasks
    are run one after the other in list order; an interleaving would only
    permute the log lines written while they run. *)
Fixpoint gather {A} (tasks : list (M A)) : M (list (Exn + A)) :=
  match tasks with
  | [] => ret []
  | t :: ts =>
      fun w =>
        let '(r, w1) := t w in
        match gather ts w1 with
        | (inr rs, w2) => (inr (r :: rs), w2)
        | (inl e, w2) => (inl e, w2)
        end
  end.

End Py.


(** *** models.py *)

Module Models.

Module Transaction.
Record t := mk {
  id : string;
  description : string;
  amount : R;
  date : string;
  bank : option string
}.
End Transaction.

(** [Field(..., ge=0.0, le=1.0)] *)
Definition unit_interval (x : R) : Py.Exn + R :=
  if PyFloat.geb x 0.0 && PyFloat.leb x 1.0 then inr x
  else inl Py.ValidationError.

Module MerchantDetection.
Record t := mk {
  transaction_id : string;
  merchant : string;
  confidence : R;
  model : string;
  reasoning : option string
}.

(** The constructor call on typed arguments: it checks the bounds of
    [confidence]. *)
Definition new (transaction_id merchant : string) (confidence : R)
           (model : string) (reasoning : option string) : Py.Exn + t :=
  match unit_interval confidence with
  | inr c => inr (mk transaction_id merchant c model reasoning)
  | inl e => inl e
  end.
End MerchantDetection.

Module Method.
Inductive t := rule | ml.   (* Literal["rule", "ml"] *)
End Method.

Module CategoryDetection.
Record t := mk {
  transaction_id : string;
  category : string;
  confidence : R;
  method : Method.t;
  rule_id : option string;
  model : option string;
  reasoning : option string
}.

Definition new (transaction_id category : string) (confidence : R)
           (method : Method.t) (rule_id model reasoning : option string)
  : Py.Exn + t :=
  match unit_interval confidence with
  | inr c =>
      inr (mk transaction_id category c method rule_id model reasoning)
  | inl e => inl e
  end.
End CategoryDetection.

(** The reason strings of the anomaly detector; the formatted one keeps
    the numbers it interpolates. *)
Inductive Reason :=
| Not_enough_historical_data
    (* "Not enough historical data (need >= 3 transactions)" *)
| All_historical_amounts_are_identical
    (* "All historical amounts are identical" *)
| Std_devs_from_mean (amount z_score mean : R)
    (* f"Amount ${amount:.2f} is {z_score:.1f} std devs from mean ${mean:.2f}" *)
| Unusually_HIGH_amount (threshold : R)
    (* f"Unusually HIGH amount (threshold: {threshold} std devs)" *)
| Unusually_LOW_amount (threshold : R).
    (* f"Unusually LOW amount (threshold: {threshold} std devs)" *)

Module AnomalyDetection.
Record t := mk {
  transaction_id : string;
  is_anomaly : bool;
  anomaly_score : R;
  confidence : R;
  reasons : list Reason
}.

Definition new (transaction_id : string) (is_anomaly : bool)
           (anomaly_score confidence : R) (reasons : list Reason)
  : Py.Exn + t :=
  match unit_interval confidence with
  | inr c => inr (mk transaction_id is_anomaly anomaly_score c reasons)
  | inl e => inl e
  end.
End AnomalyDetection.

(** Coercion of the untyped values read from a provider's JSON answer. *)
Section Coerce.
Context `{Py.Outside}.

(** a [str] field *)
Definition str_field (v : Py.json) : Py.Exn + string :=
  match Py.validate_str v with
  | Some s => inr s
  | None => inl Py.ValidationError
  end.

(** a [float] field *)
Definition float_field (v : Py.json) : Py.Exn + R :=
  match Py.validate_float v with
  | Some x => inr x
  | None => inl Py.ValidationError
  end.

(** an [Optional[str]] field fed with [result.get(...)]: a missing key
    and a JSON null both give [None]. *)
Definition optional_str_field (v : option Py.json)
  : Py.Exn + option string :=
  match v with
  | None | Some Py.JNull => inr None
  | Some j =>
      match Py.validate_str j with
      | Some s => inr (Some s)
      | None => inl Py.ValidationError
      end
  end.
End Coerce.

End Models.

(** *** detectors/anomaly.py *)

Module Anomaly.
Import Models.

Record AnomalyDetector := mk { threshold : R }.

(** [AnomalyDetector.__init__] *)
Definition init (settings : Config.Settings) : AnomalyDetector :=
  mk (Config.anomaly_threshold settings).

Definition detect (self : AnomalyDetector) (transaction : Transaction.t)
           (historical_amounts : list R) : Py.M AnomalyDetection.t :=
  Py.logger_info "anomaly_detection_started" (Transaction.id transaction);;
  if match historical_amounts with [] => true | _ => false end
     || (length historical_amounts <? 3)%nat
  then
    Py.lift (AnomalyDetection.new (Transaction.id transaction)
               false 0.0 0.10 [Not_enough_historical_data])
  else
    let mean := Stats.mean historical_amounts in
    let std := Stats.np_std historical_amounts in
    if PyFloat.eqb std 0 then
      Py.lift (AnomalyDetection.new (Transaction.id transaction)
                 false 0.0 0.50 [All_historical_amounts_are_identical])
    else
      let z_score :=
        PyFloat.abs ((Transaction.amount transaction - mean) / std) in
      let is_anomaly := PyFloat.gtb z_score (threshold self) in
      let confidence := PyFloat.min 0.99 (0.50 + z_score / 10) in
      let reasons :=
        if is_anomaly then
          [ Std_devs_from_mean (Transaction.amount transaction) z_score mean;
            if PyFloat.gtb (Transaction.amount transaction)
                           (mean + threshold self * std)
            then Unusually_HIGH_amount (threshold self)
            else Unusually_LOW_amount (threshold self) ]
        else [] in
      Py.logger_info "anomaly_detection_completed" (Transaction.id transaction);;
      Py.lift (AnomalyDetection.new (Transaction.id transaction)
                 is_anomaly z_score confidence reasons).

End Anomaly.

(** *** detectors/anomaly.py over IEEE doubles

    The same detector with a Python float as a binary64 value.  Decimal
    constants denote the nearest double, as in Python. *)

Module Float64.
Import PrimFloat.
Local Open Scope float_scope.
#[local] Set Warnings "-inexact-float".

(** [np.add.reduce] over fewer than 8 doubles: a running sum in index
    order, from zero. *)
Definition np_sum (xs : list float) : float := fold_left add xs 0.

(** The element count as a double (exact below 2^53). *)
Definition np_len (xs : list float) : float :=
  fold_left (fun n _ => n + 1) xs 0.

(** [np.mean]: the sum divided by the count. *)
Definition np_mean (xs : list float) : float := np_sum xs / np_len xs.

(** [np.std] with [ddof=0]: deviations from the mean, squared, averaged,
    square root. *)
Definition np_std (xs : list float) : float :=
  let arrmean := np_mean xs in
  let x := map (fun a => a - arrmean) xs in
  let x := map (fun d => d * d) x in
  sqrt (np_sum x / np_len xs).

(** [min(a, b)]: the first argument unless the second is strictly
    smaller; a NaN is never strictly smaller. *)
Definition min (a b : float) : float := if b <? a then b else a.

Module Transaction.
Record t := mk {
  id : string;
  description : string;
  amount : float;
  date : string;
  bank : option string
}.
End Transaction.

Inductive Reason :=
| Not_enough_historical_data
| All_historical_amounts_are_identical
| Std_devs_from_mean (amount z_score mean : float)
| Unusually_HIGH_amount (threshold : float)
| Unusually_LOW_amount (threshold : float).

Module AnomalyDetection.
Record t := mk {
  transaction_id : string;
  is_anomaly : bool;
  anomaly_score : float;
  confidence : float;
  reasons : list Reason
}.

(** [confidence] has [ge=0.0, le=1.0]; [anomaly_score] has no
    constraint, and pydantic accepts NaN and infinities for a [float]. *)
Definition new (transaction_id : string) (is_anomaly : bool)
           (anomaly_score confidence : float) (reasons : list Reason)
  : Py.Exn + t :=
  if (0 <=? confidence) && (confidence <=? 1)
  then inr (mk transaction_id is_anomaly anomaly_score confidence reasons)
  else inl Py.ValidationError.
End AnomalyDetection.

Record AnomalyDetector := mk { threshold : float }.

Definition detect (self : AnomalyDetector) (transaction : Transaction.t)
           (historical_amounts : list float) : Py.M AnomalyDetection.t :=
  Py.logger_info "anomaly_detection_started" (Transaction.id transaction);;
  if match historical_amounts with [] => true | _ => false end
     || (length historical_amounts <? 3)%nat
  then
    Py.lift (AnomalyDetection.new (Transaction.id transaction)
               false 0.0 0.10 [Not_enough_historical_data])
  else
    let mean := np_mean historical_amounts in
    let std := np_std historical_amounts in
    if std =? 0 then
      Py.lift (AnomalyDetection.new (Transaction.id transaction)
                 false 0.0 0.50 [All_historical_amounts_are_identical])
    else
      let z_score := abs ((Transaction.amount transaction - mean) / std) in
      let is_anomaly := threshold self <? z_score in
      let confidence := min 0.99 (0.50 + z_score / 10) in
      let reasons :=
        if is_anomaly then
          [ Std_devs_from_mean (Transaction.amount transaction) z_score mean;
            if mean + threshold self * std <? Transaction.amount transaction
            then Unusually_HIGH_amount (threshold self)
            else Unusually_LOW_amount (threshold self) ]
        else [] in
      Py.logger_info "anomaly_detection_completed" (Transaction.id transaction);;
      Py.lift (AnomalyDetection.new (Transaction.id transaction)
                 is_anomaly z_score confidence reasons).



End Float64.

(** *** detectors/category.py *)

Module Category.
Import Models.

Module Rule.
Record t := mk {
  category : string;
  confidence : R;
  rule_id : string
}.
End Rule.

Definition CATEGORY_RULES : gmap string Rule.t :=
  list_to_map
    [ ("starbucks", Rule.mk "cafe" 0.98 "starbucks-rule");
      ("amazon", Rule.mk "shopping" 0.95 "amazon-rule");
      ("uber", Rule.mk "transportation" 0.95 "uber-rule");
      ("walmart", Rule.mk "groceries" 0.90 "walmart-rule") ].

(** The [Categories:] line of the prompt. *)
Definition CATEGORIES : list string :=
  [ "cafe"; "groceries"; "shopping"; "transportation"; "utilities";
    "dining"; "entertainment"; "healthcare"; "other" ].

Record CategoryDetector := mk {
  provider : Config.Provider;
  model : string
}.

(** [CategoryDetector.__init__] *)
Definition init (settings : Config.Settings) : CategoryDetector :=
  match Config.llm_provider settings with
  | Config.openai => mk Config.openai (Config.openai_model settings)
  | Config.anthropic => mk Config.anthropic (Config.anthropic_model settings)
  end.

Section Detect.
Context `{Py.Outside}.

Definition _detect_with_llm (self : CategoryDetector)
           (transaction : Transaction.t) (merchant : string)
  : Py.M CategoryDetection.t :=
  let prompt :=
    Py.CategoryPrompt merchant (Transaction.description transaction)
                      (Transaction.amount transaction) in
  result ←
    match provider self with
    | Config.openai =>
        content ← Py.await_llm
          (Py.OpenAIChatCompletion (model self)
             "You are a transaction categorization expert." prompt);
        Py.lift (Py.loads content)
    | Config.anthropic =>
        content ← Py.await_llm (Py.AnthropicMessage (model self) 1024 prompt);
        Py.lift (Py.loads content)
    end;
  category ← Py.lift (Py.getitem result "category");
  confidence ← Py.lift (Py.getitem result "confidence");
  reasoning ← Py.lift (Py.get result "reasoning");
  category ← Py.lift (str_field category);
  confidence ← Py.lift (float_field confidence);
  reasoning ← Py.lift (optional_str_field reasoning);
  Py.lift (CategoryDetection.new (Transaction.id transaction) category
             confidence Method.ml None (Some (model self)) reasoning).

Definition detect (self : CategoryDetector) (transaction : Transaction.t)
           (merchant : string) : Py.M CategoryDetection.t :=
  Py.logger_info "category_detection_started" (Transaction.id transaction);;
  match CATEGORY_RULES !! merchant with
  | Some rule =>
      Py.logger_info "category_detection_rule_match"
                     (Transaction.id transaction);;
      Py.lift (CategoryDetection.new (Transaction.id transaction)
                 (Rule.category rule) (Rule.confidence rule) Method.rule
                 (Some (Rule.rule_id rule)) None
                 (Some ("Merchant '" ++ merchant ++ "' matches rule "
                        ++ Rule.rule_id rule)%string))
  | None =>
      Py.logger_info "category_detection_llm_fallback"
                     (Transaction.id transaction);;
      _detect_with_llm self transaction merchant
  end.
End Detect.

End Category.

(** *** detectors/merchant.py *)

Module Merchant.
Import Models.

Record MerchantDetector := mk {
  provider : Config.Provider;
  model : string
}.

Definition system_message : string :=
  "You are a financial transaction analyzer. Extract the merchant name from transaction descriptions and provide a canonical merchant name (lowercase, no spaces).".

Definition _build_prompt (transaction : Transaction.t) : Py.Prompt :=
  Py.MerchantPrompt (Transaction.description transaction)
                    (Transaction.amount transaction)
                    (Transaction.date transaction).

Section Detect.
Context (settings : Config.Settings) `{Py.Outside}.

(** [MerchantDetector.__init__] *)
Definition init : Py.M MerchantDetector :=
  let self :=
    match Config.llm_provider settings with
    | Config.openai => mk Config.openai (Config.openai_model settings)
    | Config.anthropic =>
        mk Config.anthropic (Config.anthropic_model settings)
    end in
  Py.logger Py.info "merchant_detector_initialized" None None;;
  mret self.

Definition _detect_with_openai (self : MerchantDetector)
           (transaction : Transaction.t) : Py.M MerchantDetection.t :=
  let prompt := _build_prompt transaction in
  content ← Py.await_llm
    (Py.OpenAIChatCompletion (model self) system_message prompt);
  result ← Py.lift (Py.loads content);
  merchant ← Py.lift (Py.getitem result "merchant");
  confidence ← Py.lift (Py.getitem result "confidence");
  reasoning ← Py.lift (Py.get result "reasoning");
  merchant ← Py.lift (str_field merchant);
  confidence ← Py.lift (float_field confidence);
  reasoning ← Py.lift (optional_str_field reasoning);
  Py.lift (MerchantDetection.new (Transaction.id transaction) merchant
             confidence (model self) reasoning).

Definition _detect_with_anthropic (self : MerchantDetector)
           (transaction : Transaction.t) : Py.M MerchantDetection.t :=
  let prompt := _build_prompt transaction in
  content ← Py.await_llm (Py.AnthropicMessage (model self) 1024 prompt);
  result ← Py.lift (Py.loads content);
  merchant ← Py.lift (Py.getitem result "merchant");
  confidence ← Py.lift (Py.getitem result "confidence");
  reasoning ← Py.lift (Py.get result "reasoning");
  merchant ← Py.lift (str_field merchant);
  confidence ← Py.lift (float_field confidence);
  reasoning ← Py.lift (optional_str_field reasoning);
  Py.lift (MerchantDetection.new (Transaction.id transaction) merchant
             confidence (model self) reasoning).

Definition detect (self : MerchantDetector) (transaction : Transaction.t)
  : Py.M MerchantDetection.t :=
  Py.logger_info "merchant_detection_started" (Transaction.id transaction);;
  Py.try_except
    (result ←
       match provider self with
       | Config.openai => _detect_with_openai self transaction
       | Config.anthropic => _detect_with_anthropic self transaction
       end;
     Py.logger_info "merchant_detection_completed"
                    (Transaction.id transaction);;
     mret result)
    (fun e =>
       Py.logger_error "merchant_detection_failed"
                       (Transaction.id transaction) e;;
       Py.raise e).

(** [enumerate(results)] *)
Fixpoint enumerate_from {A} (i : nat) (l : list A) : list (nat * A) :=
  match l with
  | [] => []
  | x :: l' => (i, x) :: enumerate_from (S i) l'
  end.

(** The [for i, result in enumerate(results)] loop of the batch helper,
    with [detections] the list built so far. *)
Fixpoint filter_results (transactions : list Transaction.t)
         (items : list (nat * (Py.Exn + MerchantDetection.t)))
         (detections : list MerchantDetection.t)
  : Py.M (list MerchantDetection.t) :=
  match items with
  | [] => mret detections
  | (i, result) :: rest =>
      match result with
      | inl e =>
          match transactions !! i with
          | Some tx =>
              Py.logger_error "batch_detection_error" (Transaction.id tx) e;;
              filter_results transactions rest detections
          | None => Py.raise Py.IndexError
          end
      | inr detection =>
          filter_results transactions rest (detections ++ [detection])
      end
  end.

Definition detect_merchants_batch (transactions : list Transaction.t)
  : Py.M (list MerchantDetection.t) :=
  detector ← init;
  let tasks := map (detect detector) transactions in
  results ← Py.gather tasks;
  filter_results transactions (enumerate_from 0 results) [].
End Detect.

End Merchant.

(** ** A scripted outside world, for concrete runs *)

Module Scripted.
Import Py.

(** The strict coercions: only a JSON string is a [str], only a JSON
    number is a [float]. *)
Definition strict_str (v : json) : option string :=
  match v with JString s => Some s | _ => None end.

Definition strict_float (v : json) : option R :=
  match v with JNumber x => Some x | _ => None end.

(** The [n]-th call is answered by the [n]-th entry of [script]; the
    parser knows the texts listed in [parses] and rejects all others. *)
Definition outside (script : list (Exn + string))
           (parses : gmap string json) : Outside :=
  {| llm := fun n _ => nth n script (inl (APIError "connection refused"));
     json_loads := fun text => parses !! text;
     validate_str := strict_str;
     validate_float := strict_float;
     validate_str_string := fun s => eq_refl;
     validate_float_number := fun x => eq_refl |}.

Definition tx (id description : string) (amount : R) : Models.Transaction.t :=
  Models.Transaction.mk id description amount "2024-03-20" None.

Definition world0 : World := mkWorld [] [].

(** The JSON objects a provider answers with. *)
Definition merchant_fields (merchant : string) (confidence : R)
  : gmap string json :=
  list_to_map [ ("merchant", JString merchant);
                ("confidence", JNumber confidence) ].

Definition merchant_answer (merchant : string) (confidence : R) : json :=
  JObject (merchant_fields merchant confidence).

Definition category_fields (category : string) (confidence : R)
  : gmap string json :=
  list_to_map [ ("category", JString category);
                ("confidence", JNumber confidence) ].

Definition category_answer (category : string) (confidence : R) : json :=
  JObject (category_fields category confidence).

(** A provider that is down: every call raises. *)
Definition provider_down : Outside := outside [] ∅.

(** A provider that does not recognise the description it is sent. *)
Definition unknown_merchant : Outside :=
  outside [inr "answer-1"]
          {[ "answer-1" := merchant_answer "unknown_merchant" 0.30 ]}.

(** A provider whose second call times out. *)
Definition second_fails : Outside :=
  outside [inr "answer-1"; inl (APIError "timeout"); inr "answer-3"]
          (list_to_map [ ("answer-1", merchant_answer "netflix" 0.9);
                         ("answer-3", merchant_answer "spotify" 0.8) ]).

Definition three_transactions : list Models.Transaction.t :=
  [ tx "tx-1" "NFLX.COM 866-579-7172" 15.99;
    tx "tx-2" "SQ *COFFEE SHOP" 4.5;
    tx "tx-3" "SPOTIFY P12AB34" 9.99 ].

(** A provider that answers with a category outside the prompt's list. *)
Definition off_vocabulary : Outside :=
  outside [inr "answer-1"]
          {[ "answer-1" := category_answer "gambling" 0.9 ]}.

End Scripted.

(** *** api/v1/endpoints.py *)

Module Endpoints.
Import Models.

(** [HTTPException(status_code=..., detail=str(e))]; the detail keeps the
    exception it renders. *)
Record HTTPException := mkHTTP {
  status_code : Z;
  detail : Py.Exn
}.

(** A request handler: it answers with a value or with an HTTP error. *)
Definition H (A : Type) : Type := Py.World -> (HTTPException + A) * Py.World.

Module HealthResponse.
Inductive Status := healthy | degraded | unhealthy.
Record t := mk {
  status : Status;
  version : string;
  llm_provider : Config.Provider;
  llm_available : bool;
  timestamp : string
}.
End HealthResponse.

(** [a or b] on two strings, and [bool(s)]: the empty string is falsy. *)
Definition str_or (a b : string) : string :=
  if PyStr.is_empty a then b else a.

Definition truthy (s : string) : bool := negb (PyStr.is_empty s).

(** [try: body except Exception as e: logger.error(event, ...);
    raise HTTPException(status_code=500, detail=str(e))] *)
Definition try_or_500 {A} (body : Py.M A) (event transaction_id : string)
  : H A :=
  fun w =>
    match body w with
    | (inr a, w') => (inr a, w')
    | (inl e, w') =>
        (inl (mkHTTP 500 e),
         snd (Py.logger_error event transaction_id e w'))
    end.

Section Handlers.
Context (settings : Config.Settings) `{Py.Outside}.

(** The three module-level singletons. *)
Variable merchant_detector : Merchant.MerchantDetector.
Variable category_detector : Category.CategoryDetector.
Variable anomaly_detector : Anomaly.AnomalyDetector.

(** [utcnow_isoformat] is [datetime.utcnow().isoformat()]. *)
Definition health_check (utcnow_isoformat : string) : HealthResponse.t :=
  let llm_available :=
    truthy (str_or (Config.openai_api_key settings)
                   (Config.anthropic_api_key settings)) in
  let status :=
    if llm_available then HealthResponse.healthy
    else HealthResponse.degraded in
  HealthResponse.mk status (Config.service_version settings)
    (Config.llm_provider settings) llm_available
    (utcnow_isoformat ++ "Z")%string.

Definition detect_merchant (transaction : Transaction.t)
  : H MerchantDetection.t :=
  try_or_500
    (Py.logger_info "merchant_detection_request" (Transaction.id transaction);;
     result ← Merchant.detect merchant_detector transaction;
     Py.logger_info "merchant_detection_success" (Transaction.id transaction);;
     mret result)
    "merchant_detection_error" (Transaction.id transaction).

Definition detect_category (transaction : Transaction.t) (merchant : string)
  : H CategoryDetection.t :=
  try_or_500
    (Py.logger_info "category_detection_request" (Transaction.id transaction);;
     result ← Category.detect category_detector transaction merchant;
     Py.logger_info "category_detection_success" (Transaction.id transaction);;
     mret result)
    "category_detection_error" (Transaction.id transaction).

Definition detect_anomaly (transaction : Transaction.t)
           (historical_amounts : list R) : H AnomalyDetection.t :=
  try_or_500
    (Py.logger_info "anomaly_detection_request" (Transaction.id transaction);;
     result ← Anomaly.detect anomaly_detector transaction historical_amounts;
     Py.logger_info "anomaly_detection_success" (Transaction.id transaction);;
     mret result)
    "anomaly_detection_error" (Transaction.id transaction).
End Handlers.

End Endpoints.

(** * What the properties are stated with *)

(** ** The anomaly detector of python-ml *)

Section AnomalyObservations.
Import Models Anomaly.

Definition started_world (tx : Transaction.t) (w : Py.World) : Py.World :=
  Py.mkWorld (Py.calls w)
    (Py.log w ++ [Py.mkLog Py.info "anomaly_detection_started"
                    (Some (Transaction.id tx)) None]).

Definition completed_world (tx : Transaction.t) (w : Py.World) : Py.World :=
  Py.mkWorld (Py.calls w)
    (Py.log (started_world tx w)
       ++ [Py.mkLog Py.info "anomaly_detection_completed"
             (Some (Transaction.id tx)) None]).

(** The z-score, the verdict, the confidence and the reasons of the third
    branch, as the code computes them. *)
Definition z_of (tx : Transaction.t) (hist : list R) : R :=
  PyFloat.abs ((Transaction.amount tx - Stats.mean hist) / Stats.np_std hist).

Definition reasons_of (self : AnomalyDetector) (tx : Transaction.t)
           (hist : list R) : list Reason :=
  if PyFloat.gtb (z_of tx hist) (threshold self) then
    [ Std_devs_from_mean (Transaction.amount tx) (z_of tx hist)
        (Stats.mean hist);
      if PyFloat.gtb (Transaction.amount tx)
           (Stats.mean hist + threshold self * Stats.np_std hist)
      then Unusually_HIGH_amount (threshold self)
      else Unusually_LOW_amount (threshold self) ]
  else [].

End AnomalyObservations.

(** ** Historical samples *)

Section Samples.


Definition alternating4 : list R := [9; 11; 9; 11].


End Samples.

(** ** One detection of the merchant detector *)

Section MerchantObservations.
Import Models Merchant.
Context `{O : Py.Outside}.

(** The request a detection sends. *)
Definition request (self : MerchantDetector) (tx : Transaction.t) : Py.Request :=
  match provider self with
  | Config.openai =>
      Py.OpenAIChatCompletion (model self) system_message (_build_prompt tx)
  | Config.anthropic =>
      Py.AnthropicMessage (model self) 1024 (_build_prompt tx)
  end.

(** What a detection builds from the parsed answer: the two required keys,
    the optional one, their coercion and the bounds of the confidence. *)
Definition parsed_outcome (self : MerchantDetector) (tx : Transaction.t)
           (result : Py.json) : Py.Exn + MerchantDetection.t :=
  Py.and_then (Py.getitem result "merchant") (fun merchant =>
  Py.and_then (Py.getitem result "confidence") (fun confidence =>
  Py.and_then (Py.get result "reasoning") (fun reasoning =>
  Py.and_then (str_field merchant) (fun merchant =>
  Py.and_then (float_field confidence) (fun confidence =>
  Py.and_then (optional_str_field reasoning) (fun reasoning =>
  MerchantDetection.new (Transaction.id tx) merchant confidence
                        (model self) reasoning)))))).

(** What a detection makes of the provider's reply. *)
Definition answer_outcome (self : MerchantDetector) (tx : Transaction.t)
           (reply : Py.Exn + string) : Py.Exn + MerchantDetection.t :=
  Py.and_then reply (fun content =>
  Py.and_then (Py.loads content) (parsed_outcome self tx)).

(** The two log records of a detection. *)
Definition detect_log (tx : Transaction.t)
           (outcome : Py.Exn + MerchantDetection.t) : list Py.LogRecord :=
  [ Py.mkLog Py.info "merchant_detection_started"
      (Some (Transaction.id tx)) None;
    match outcome with
    | inr _ => Py.mkLog Py.info "merchant_detection_completed"
                 (Some (Transaction.id tx)) None
    | inl e => Py.mkLog Py.error "merchant_detection_failed"
                 (Some (Transaction.id tx)) (Some e)
    end ].

(** The three ways the external classifier fails, with the exception each
    raises: the call itself, an answer that is not JSON, an answer without
    a required key. *)
Inductive classifier_failure : Py.Exn + string -> Py.Exn -> Prop :=
| transport_error e :
    classifier_failure (inl e) e
| unparseable_response content :
    Py.json_loads content = None ->
    classifier_failure (inr content) Py.JSONDecodeError
| missing_merchant content fields :
    Py.json_loads content = Some (Py.JObject fields) ->
    fields !! "merchant" = None ->
    classifier_failure (inr content) (Py.KeyError "merchant")
| missing_confidence content fields v :
    Py.json_loads content = Some (Py.JObject fields) ->
    fields !! "merchant" = Some v ->
    fields !! "confidence" = None ->
    classifier_failure (inr content) (Py.KeyError "confidence").

End MerchantObservations.

(** ** A batch of detections *)

Section BatchObservations.
Import Models Merchant.
Context (settings : Config.Settings) `{O : Py.Outside}.

(** The detector [MerchantDetector()] builds from the settings. *)
Definition detector : MerchantDetector :=
  match Config.llm_provider settings with
  | Config.openai => mk Config.openai (Config.openai_model settings)
  | Config.anthropic => mk Config.anthropic (Config.anthropic_model settings)
  end.

Definition initialized_log : Py.LogRecord :=
  Py.mkLog Py.info "merchant_detector_initialized" None None.

(** The outcomes of the detections of [txs], the first of which makes the
    provider call number [n]. *)
Fixpoint outcomes_from (self : MerchantDetector) (n : nat)
         (txs : list Transaction.t) : list (Py.Exn + MerchantDetection.t) :=
  match txs with
  | [] => []
  | tx :: rest =>
      answer_outcome self tx (Py.llm n (request self tx))
        :: outcomes_from self (S n) rest
  end.

(** The values among the outcomes, in order. *)
Fixpoint successes {A} (outcomes : list (Py.Exn + A)) : list A :=
  match outcomes with
  | [] => []
  | inr a :: rest => a :: successes rest
  | inl _ :: rest => successes rest
  end.

(** The transactions whose outcome is a value, in order. *)
Fixpoint succeeded {A} (txs : list Transaction.t)
         (outcomes : list (Py.Exn + A)) : list Transaction.t :=
  match txs, outcomes with
  | tx :: txs', inr _ :: rest => tx :: succeeded txs' rest
  | _ :: txs', inl _ :: rest => succeeded txs' rest
  | _, _ => []
  end.

(** The log records written while the detections run. *)
Fixpoint detect_logs (txs : list Transaction.t)
         (outcomes : list (Py.Exn + MerchantDetection.t))
  : list Py.LogRecord :=
  match txs, outcomes with
  | tx :: txs', o :: rest => detect_log tx o ++ detect_logs txs' rest
  | _, _ => []
  end.

(** One "batch_detection_error" record per failed transaction, carrying
    its identifier and its exception, in order. *)
Fixpoint batch_error_log {A} (txs : list Transaction.t)
         (outcomes : list (Py.Exn + A)) : list Py.LogRecord :=
  match txs, outcomes with
  | tx :: txs', inl e :: rest =>
      Py.mkLog Py.error "batch_detection_error"
               (Some (Transaction.id tx)) (Some e)
        :: batch_error_log txs' rest
  | _ :: txs', inr _ :: rest => batch_error_log txs' rest
  | _, _ => []
  end.

End BatchObservations.

(** ** The category detector *)

Section CategoryObservations.
Import Models Category.
Context `{O : Py.Outside}.

(** The request the fallback sends. *)
Definition category_request (self : CategoryDetector) (tx : Transaction.t)
           (merchant : string) : Py.Request :=
  let prompt :=
    Py.CategoryPrompt merchant (Transaction.description tx)
                      (Transaction.amount tx) in
  match provider self with
  | Config.openai =>
      Py.OpenAIChatCompletion (model self)
        "You are a transaction categorization expert." prompt
  | Config.anthropic => Py.AnthropicMessage (model self) 1024 prompt
  end.

Definition category_log (event : string) (tx : Transaction.t) : Py.LogRecord :=
  Py.mkLog Py.info event (Some (Transaction.id tx)) None.

End CategoryObservations.

(** ** The pattern table *)

Section PatternObservations.
Import MlService.

(** The first entry of a table whose pattern occurs in the text. *)
Definition first_match (patterns : list (string * string)) (text : string)
  : option (string * string) :=
  find (fun entry => PyStr.contains (fst entry) text) patterns.

End PatternObservations.

(** ** Character classes of a merchant token *)

Section TokenObservations.

(** Every character of [s] satisfies [p]. *)
Fixpoint all_chars (p : ascii -> bool) (s : string) : bool :=
  match s with
  | EmptyString => true
  | String c s' => p c && all_chars p s'
  end.

Definition is_ascii_char (c : ascii) : bool := (nat_of_ascii c <? 128)%nat.

(** [s.isascii()] *)
Definition is_ascii (s : string) : bool := all_chars is_ascii_char s.

Definition is_upper_char (c : ascii) : bool :=
  ((65 <=? nat_of_ascii c) && (nat_of_ascii c <=? 90))%nat.

(** A canonical token: not empty, no whitespace, no upper-case letter. *)
Definition canonical_token (s : string) : bool :=
  negb (PyStr.is_empty s)
  && all_chars (fun c => negb (PyStr.isspace c) && negb (is_upper_char c)) s.

End TokenObservations.

(** ** One fallback of the category detector *)

Section CategoryOutcomes.
Import Models Category.
Context `{O : Py.Outside}.

(** What the fallback builds from the parsed answer. *)
Definition category_parsed_outcome (self : CategoryDetector)
           (tx : Transaction.t) (result : Py.json)
  : Py.Exn + CategoryDetection.t :=
  Py.and_then (Py.getitem result "category") (fun category =>
  Py.and_then (Py.getitem result "confidence") (fun confidence =>
  Py.and_then (Py.get result "reasoning") (fun reasoning =>
  Py.and_then (str_field category) (fun category =>
  Py.and_then (float_field confidence) (fun confidence =>
  Py.and_then (optional_str_field reasoning) (fun reasoning =>
  CategoryDetection.new (Transaction.id tx) category confidence Method.ml
                        None (Some (model self)) reasoning)))))).

(** What the fallback makes of the provider's reply. *)
Definition category_answer_outcome (self : CategoryDetector)
           (tx : Transaction.t) (reply : Py.Exn + string)
  : Py.Exn + CategoryDetection.t :=
  Py.and_then reply (fun content =>
  Py.and_then (Py.loads content) (category_parsed_outcome self tx)).

End CategoryOutcomes.

(** ** Log records of the batch helper *)

Section BatchLogObservations.

Definition is_batch_error (l : Py.LogRecord) : bool :=
  String.eqb (Py.event l) "batch_detection_error".

End BatchLogObservations.

(** ** More scripted providers *)

Section MoreScripts.
Import Py.

(** A provider that reports a confidence above 1. *)
Definition overconfident : Outside :=
  Scripted.outside [inr "answer-1"]
    {[ "answer-1" := Scripted.merchant_answer "starbucks" 1.5 ]}.

(** A provider that answers with a label that is not a canonical token. *)
Definition free_text_label : Outside :=
  Scripted.outside [inr "answer-1"]
    {[ "answer-1" := Scripted.merchant_answer "Star Bucks" 0.9 ]}.

(** A provider that answers all three calls of a batch. *)
Definition all_answer : Outside :=
  Scripted.outside [inr "answer-1"; inr "answer-2"; inr "answer-3"]
    (list_to_map [ ("answer-1", Scripted.merchant_answer "netflix" 0.9);
                   ("answer-2", Scripted.merchant_answer "unknown_merchant" 0.3);
                   ("answer-3", Scripted.merchant_answer "spotify" 0.8) ]).

End MoreScripts.

(** ** Log records of the endpoints *)

Section EndpointObservations.
Import Models.

Definition endpoint_log (level : Py.Level) (event : string)
           (tx : Transaction.t) (e : option Py.Exn) : Py.LogRecord :=
  Py.mkLog level event (Some (Transaction.id tx)) e.

End EndpointObservations.

(** * Properties *)

(** ** Float comparisons *)

Section PyFloatFacts.
Import PyFloat.

Lemma eqb_true x y : eqb x y = true <-> x = y.
Proof. unfold eqb. destruct (Req_dec_T x y); split; congruence. Qed.

Lemma eqb_false x y : eqb x y = false <-> x <> y.
Proof. unfold eqb. destruct (Req_dec_T x y); split; congruence. Qed.


Lemma gtb_true x y : gtb x y = true <-> x > y.
Proof. unfold gtb. destruct (Rgt_dec x y); split; try congruence; tauto. Qed.

Lemma geb_true x y : geb x y = true <-> x >= y.
Proof. unfold geb. destruct (Rge_dec x y); split; try congruence; tauto. Qed.

Lemma leb_true x y : leb x y = true <-> x <= y.
Proof. unfold leb. destruct (Rle_dec x y); split; try congruence; tauto. Qed.

Lemma min_Rmin a b : min a b = Rmin a b.
Proof.
  unfold min, Rmin. destruct (Rlt_dec b a), (Rle_dec a b); lra.
Qed.

Lemma min_le_l a b : min a b <= a.
Proof. rewrite min_Rmin. apply Rmin_l. Qed.


Lemma min_glb c a b : c <= a -> c <= b -> c <= min a b.
Proof. rewrite min_Rmin. apply Rmin_glb. Qed.


Lemma unit_interval_ok x :
  0 <= x <= 1 -> Models.unit_interval x = inr x.
Proof.
  intros [H0 H1]. unfold Models.unit_interval.
  assert (Hg : geb x 0.0 = true) by (apply geb_true; lra).
  assert (Hl : leb x 1.0 = true) by (apply leb_true; lra).
  now rewrite Hg, Hl.
Qed.

Lemma unit_interval_inv x y :
  Models.unit_interval x = inr y -> y = x /\ 0 <= x <= 1.
Proof.
  unfold Models.unit_interval.
  destruct (geb x 0.0) eqn:Hg; [|discriminate].
  destruct (leb x 1.0) eqn:Hl; [|discriminate].
  simpl. intros [= <-]. apply geb_true in Hg. apply leb_true in Hl.
  split; [reflexivity | lra].
Qed.
End PyFloatFacts.

(** ** Mean and standard deviation *)

Section StatsFacts.
Import Stats.

Lemma rsum_squares_nonneg (f : R -> R) xs :
  0 <= rsum (map (fun x => f x * f x) xs).
Proof.
  induction xs as [|x xs IH]; simpl; [lra|].
  pose proof (Rle_0_sqr (f x)) as Hsq. unfold Rsqr in Hsq. lra.
Qed.

Lemma sq_dev_nonneg xs : 0 <= sq_dev xs.
Proof. apply (rsum_squares_nonneg (fun x => x - mean xs)). Qed.

Lemma sqrt_quotient_zero a d :
  0 <= a -> 0 < d -> (sqrt (a / d) = 0 <-> a = 0).
Proof.
  intros Ha Hd. split.
  - intros Hs. apply sqrt_eq_0 in Hs.
    + apply (Rmult_eq_compat_r d) in Hs. field_simplify in Hs; lra.
    + apply Rmult_le_pos; [lra|]. left. now apply Rinv_0_lt_compat.
  - intros ->. unfold Rdiv. rewrite Rmult_0_l. apply sqrt_0.
Qed.

Lemma rlen_ge n xs : (n <= length xs)%nat -> INR n <= rlen xs.
Proof. intros Hn. unfold rlen. now apply le_INR. Qed.

(** With two points or more, both estimators vanish exactly when the sum
    of squared deviations does. *)
Lemma np_std_zero xs :
  (2 <= length xs)%nat -> (np_std xs = 0 <-> sq_dev xs = 0).
Proof.
  intros Hn. apply sqrt_quotient_zero; [apply sq_dev_nonneg|].
  pose proof (rlen_ge 2 xs Hn) as Hl. simpl in Hl. lra.
Qed.

Lemma stdev_zero xs :
  (2 <= length xs)%nat -> (stdev xs = 0 <-> sq_dev xs = 0).
Proof.
  intros Hn. apply sqrt_quotient_zero; [apply sq_dev_nonneg|].
  pose proof (rlen_ge 2 xs Hn) as Hl. simpl in Hl. lra.
Qed.

Lemma stdev_zero_np_std xs :
  (2 <= length xs)%nat -> (stdev xs = 0 <-> np_std xs = 0).
Proof.
  intros Hn. rewrite stdev_zero, np_std_zero by assumption. reflexivity.
Qed.



End StatsFacts.

(** ** The anomaly detector of python-ml, branch by branch *)

Section AnomalyBranches.
Import Models Anomaly.

Lemma short_sample (hist : list R) :
  (length hist < 3)%nat ->
  match hist with [] => true | _ => false end || (length hist <? 3)%nat = true.
Proof.
  intros Hn. apply orb_true_iff. right. now apply Nat.ltb_lt.
Qed.

Lemma long_sample (hist : list R) :
  (3 <= length hist)%nat ->
  match hist with [] => true | _ => false end || (length hist <? 3)%nat = false.
Proof.
  intros Hn. apply orb_false_iff. split.
  - destruct hist; [simpl in Hn; lia | reflexivity].
  - apply Nat.ltb_ge. lia.
Qed.

Lemma detect_insufficient self tx hist w :
  (length hist < 3)%nat ->
  detect self tx hist w =
    (inr (AnomalyDetection.mk (Transaction.id tx) false 0.0 0.10
            [Not_enough_historical_data]),
     started_world tx w).
Proof.
  intros Hn. unfold detect, mbind, Py.M_bind, Py.bind, Py.logger_info, Py.logger.
  rewrite (short_sample hist Hn).
  unfold Py.lift, AnomalyDetection.new.
  rewrite unit_interval_ok by lra. reflexivity.
Qed.

Lemma detect_zero_std self tx hist w :
  (3 <= length hist)%nat ->
  Stats.np_std hist = 0 ->
  detect self tx hist w =
    (inr (AnomalyDetection.mk (Transaction.id tx) false 0.0 0.50
            [All_historical_amounts_are_identical]),
     started_world tx w).
Proof.
  intros Hn Hstd.
  unfold detect, mbind, Py.M_bind, Py.bind, Py.logger_info, Py.logger.
  rewrite (long_sample hist Hn).
  apply eqb_true in Hstd. rewrite Hstd.
  unfold Py.lift, AnomalyDetection.new.
  rewrite unit_interval_ok by lra. reflexivity.
Qed.

Lemma z_of_nonneg tx hist : 0 <= z_of tx hist.
Proof. apply Rabs_pos. Qed.

Lemma z_confidence_bounds z :
  0 <= z -> 0.50 <= PyFloat.min 0.99 (0.50 + z / 10) <= 0.99.
Proof.
  intros Hz. split.
  - apply min_glb; lra.
  - apply min_le_l.
Qed.

Lemma detect_zscore self tx hist w :
  (3 <= length hist)%nat ->
  Stats.np_std hist <> 0 ->
  detect self tx hist w =
    (inr (AnomalyDetection.mk (Transaction.id tx)
            (PyFloat.gtb (z_of tx hist) (threshold self))
            (z_of tx hist)
            (PyFloat.min 0.99 (0.50 + z_of tx hist / 10))
            (reasons_of self tx hist)),
     completed_world tx w).
Proof.
  intros Hn Hstd.
  unfold detect, mbind, Py.M_bind, Py.bind, Py.logger_info, Py.logger.
  rewrite (long_sample hist Hn).
  apply eqb_false in Hstd. rewrite Hstd.
  unfold Py.lift, AnomalyDetection.new. fold (z_of tx hist).
  pose proof (z_confidence_bounds (z_of tx hist) (z_of_nonneg tx hist)) as Hc.
  rewrite unit_interval_ok by lra. reflexivity.
Qed.
End AnomalyBranches.

(** ** Concrete samples *)

Section SampleFacts.
Import Stats.








Lemma mean_alternating4 : mean alternating4 = 10.
Proof. unfold mean, rsum, rlen, alternating4. simpl. field. Qed.


Lemma np_std_alternating4 : np_std alternating4 = 1.
Proof.
  unfold np_std, sq_dev. rewrite mean_alternating4.
  unfold rlen, alternating4. simpl.
  replace ((9 - 10) * (9 - 10) + ((11 - 10) * (11 - 10) + ((9 - 10) * (9 - 10) + ((11 - 10) * (11 - 10) + 0)))) with 4 by ring.
  replace (4 / (1 + 1 + 1 + 1)) with (1 * 1) by field.
  apply sqrt_square. lra.
Qed.


Lemma stdev_alternating4_pos : stdev alternating4 <> 0.
Proof.
  rewrite stdev_zero_np_std by (simpl; lia).
  rewrite np_std_alternating4. lra.
Qed.
End SampleFacts.

(** ** The anomaly scorers *)

Section AnomalyClaims.
Import Models Anomaly.



(** C4, as the code has it.  With fewer than 3 historical points no scorer
    raises: the python-ml detector returns not-anomalous, score 0,
    confidence 0.10 and the single reason "Not enough historical data";
    the ml-service scorer returns not-anomalous, score 0 and the reason
    "Insufficient historical data", to which its endpoint attaches
    confidence 0.60. *)
Theorem insufficient_history_degrades :
  forall hist : list R,
    (length hist < 3)%nat ->
    (forall self tx w,
        detect self tx hist w =
          (inr (AnomalyDetection.mk (Transaction.id tx) false 0 0.10
                  [Not_enough_historical_data]),
           started_world tx w)) /\
    (forall amount,
        MlService.detect_anomaly_zscore amount hist =
          (false, 0, Some MlService.Insufficient_historical_data)) /\
    (forall mtx,
        MlService.detect_anomaly (MlService.AnomalyRequest.mk mtx hist) =
          MlService.AnomalyDetectionResponse.mk false 0 0.60 "zscore"
            (Some MlService.Insufficient_historical_data)).
Proof.
  intros hist Hn.
  assert (Hlt : (length hist <? 3)%nat = true) by now apply Nat.ltb_lt.
  assert (Hge : (10 <=? length hist)%nat = false) by (apply Nat.leb_gt; lia).
  split; [|split].
  - intros self tx w. rewrite detect_insufficient by exact Hn.
    repeat f_equal; lra.
  - intros amount. unfold MlService.detect_anomaly_zscore.
    rewrite Hlt. repeat f_equal; lra.
  - intros mtx. unfold MlService.detect_anomaly, MlService.detect_anomaly_zscore.
    cbn [MlService.AnomalyRequest.historical_amounts
           MlService.AnomalyRequest.transaction].
    rewrite Hlt, Hge. repeat f_equal; lra.
Qed.

Lemma insufficient_history_degrades_witness :
  (length [10; 12] < 3)%nat /\
  MlService.detect_anomaly_zscore 500 [10; 12] =
    (false, 0, Some MlService.Insufficient_historical_data).
Proof.
  assert (Hn : (length [10; 12] < 3)%nat) by (simpl; lia).
  split; [exact Hn|].
  exact (proj1 (proj2 (insufficient_history_degrades [10; 12] Hn)) 500).
Defined.

(** C4 as stated fails on the ml-service endpoint: with two historical
    points the response carries confidence 0.60, above 0.5. *)
Lemma insufficient_history_confidence_above_half :
  let request :=
    MlService.AnomalyRequest.mk
      (MlService.Transaction.mk "tx-1" "STARBUCKS #1234" 500 "2024-03-20")
      [10; 12] in
  (length (MlService.AnomalyRequest.historical_amounts request) < 3)%nat /\
  MlService.AnomalyDetectionResponse.is_anomaly
    (MlService.detect_anomaly request) = false /\
  ~ MlService.AnomalyDetectionResponse.confidence
      (MlService.detect_anomaly request) <= 0.5.
Proof.
  simpl. split; [lia|].
  unfold MlService.detect_anomaly, MlService.detect_anomaly_zscore. simpl.
  split; [reflexivity | lra].
Qed.



End AnomalyClaims.

Section Float64Runs.
Import PrimFloat.
Local Open Scope float_scope.
#[local] Set Warnings "-inexact-float".


(** On small samples with exact arithmetic the detector over doubles takes
    the same branches as the detector over the reals: the constant history
    10, 10, 10 is "identical", and 100 against 9, 11, 9, 11 is anomalous,
    on the high side, with confidence 0.99. *)
Example float64_detector_on_exact_samples :
  (exists r w',
      Float64.detect (Float64.mk 2.5)
        (Float64.Transaction.mk "tx-1" "STARBUCKS #1234" 50
           "2024-03-20" None)
        [10; 10; 10] Scripted.world0 = (inr r, w') /\
      Float64.AnomalyDetection.is_anomaly r = false /\
      Float64.AnomalyDetection.reasons r
        = [Float64.All_historical_amounts_are_identical]) /\
  (exists r w',
      Float64.detect (Float64.mk 2.5)
        (Float64.Transaction.mk "tx-1" "UNKNOWN STORE" 100
           "2024-03-20" None)
        [9; 11; 9; 11] Scripted.world0 = (inr r, w') /\
      Float64.AnomalyDetection.is_anomaly r = true /\
      Float64.AnomalyDetection.anomaly_score r = 90 /\
      Float64.AnomalyDetection.confidence r = 0.99 /\
      Float64.AnomalyDetection.reasons r
        = [ Float64.Std_devs_from_mean 100 90 10;
            Float64.Unusually_HIGH_amount 2.5 ]).
Proof.
  split; eexists _, _; (split; [vm_compute; reflexivity|]);
    repeat split; vm_compute; reflexivity.
Qed.
(** The constant history 0.1, 0.1, 0.1 does not have a zero deviation in
    doubles: the running sum rounds, so the mean is not 0.1. *)
Example float64_constant_history_with_nonzero_deviation :
  (Float64.np_std [0.1; 0.1; 0.1] =? 0) = false /\
  (Float64.np_mean [0.1; 0.1; 0.1] =? 0.1) = false.
Proof. split; vm_compute; reflexivity. Qed.
End Float64Runs.

Section ZScoreClaims.
Import Models Anomaly.








End ZScoreClaims.

(** ** The merchant detector of python-ml *)

Section MerchantFacts.
Import Models Merchant.
Context `{O : Py.Outside}.

Ltac run_monad :=
  unfold mbind, mret, Py.M_bind, Py.M_ret, Py.bind, Py.ret, Py.lift,
    Py.raise, Py.try_except, Py.logger_info, Py.logger_error, Py.logger,
    Py.await_llm.

Ltac settle :=
  cbn [Py.calls Py.log]; rewrite <- ?List.app_assoc; reflexivity.

Lemma detect_outcome self tx w :
  let outcome :=
    answer_outcome self tx (Py.llm (length (Py.calls w)) (request self tx)) in
  detect self tx w =
    (outcome,
     Py.mkWorld (Py.calls w ++ [request self tx])
                (Py.log w ++ detect_log tx outcome)).
Proof.
  unfold detect, request, answer_outcome, parsed_outcome, detect_log,
    _detect_with_openai, _detect_with_anthropic.
  destruct (provider self); run_monad; cbn [Py.calls Py.log];
    (destruct (Py.llm _ _) as [e | content]; [ settle |]);
    cbn [Py.and_then];
    (destruct (Py.loads content) as [e | result]; [ settle |]);
    cbn [Py.and_then];
    (destruct (Py.getitem result "merchant"); [ settle |]);
    cbn [Py.and_then];
    (destruct (Py.getitem result "confidence"); [ settle |]);
    cbn [Py.and_then];
    (destruct (Py.get result "reasoning"); [ settle |]);
    cbn [Py.and_then];
    (destruct (str_field _); [ settle |]);
    cbn [Py.and_then];
    (destruct (float_field _); [ settle |]);
    cbn [Py.and_then];
    (destruct (optional_str_field _); [ settle |]);
    cbn [Py.and_then];
    (destruct (MerchantDetection.new _ _ _ _ _); settle).
Qed.
End MerchantFacts.

Section BatchFacts.
Import Models Merchant.
Context (settings : Config.Settings) `{O : Py.Outside}.

Lemma outcomes_from_length self n txs :
  length (outcomes_from self n txs) = length txs.
Proof.
  revert n. induction txs as [|tx txs IH]; intros n; simpl;
    [reflexivity | now rewrite IH].
Qed.

Lemma gather_detect self txs :
  forall w,
    Py.gather (map (detect self) txs) w =
      (inr (outcomes_from self (length (Py.calls w)) txs),
       Py.mkWorld
         (Py.calls w ++ map (request self) txs)
         (Py.log w
            ++ detect_logs txs (outcomes_from self (length (Py.calls w)) txs))).
Proof.
  induction txs as [|tx txs IH]; intros w.
  - simpl. unfold Py.ret. rewrite !List.app_nil_r. now destruct w.
  - cbn [map Py.gather outcomes_from detect_logs].
    rewrite detect_outcome. cbv zeta. rewrite IH.
    cbn [Py.calls Py.log].
    rewrite List.length_app, Nat.add_1_r.
    rewrite <- !List.app_assoc. reflexivity.
Qed.

Lemma filter_results_spec (all_txs : list Transaction.t) :
  forall outcomes (prefix txs : list Transaction.t) detections w,
    all_txs = (prefix ++ txs)%list ->
    length outcomes = length txs ->
    filter_results all_txs (enumerate_from (length prefix) outcomes)
                   detections w =
      (inr (detections ++ successes outcomes)%list,
       Py.mkWorld (Py.calls w)
                  (Py.log w ++ batch_error_log txs outcomes)).
Proof.
  induction outcomes as [|o outcomes IH];
    intros prefix txs detections w Hall Hlen.
  - simpl. unfold mret, Py.M_ret, Py.ret.
    destruct txs; [|discriminate].
    simpl. rewrite !List.app_nil_r. now destruct w.
  - destruct txs as [|tx txs]; [discriminate|].
    injection Hlen as Hlen.
    assert (Hall' : all_txs = ((prefix ++ [tx]) ++ txs)%list)
      by (rewrite <- List.app_assoc; exact Hall).
    assert (Hlook : all_txs !! length prefix = Some tx)
      by (rewrite Hall; apply list_lookup_middle; reflexivity).
    specialize (IH (prefix ++ [tx])%list txs).
    rewrite List.length_app, Nat.add_1_r in IH.
    cbn [enumerate_from filter_results]. destruct o as [e | d].
    + rewrite Hlook.
      unfold mbind, Py.M_bind, Py.bind, Py.logger_error, Py.logger.
      rewrite IH by assumption.
      cbn [Py.calls Py.log successes batch_error_log].
      rewrite <- List.app_assoc. reflexivity.
    + rewrite IH by assumption.
      cbn [successes batch_error_log].
      rewrite <- List.app_assoc. reflexivity.
Qed.

(** The whole run of the batch helper. *)
Lemma batch_run transactions w :
  let outcomes := outcomes_from (detector settings) (length (Py.calls w)) transactions in
  detect_merchants_batch settings transactions w =
    (inr (successes outcomes),
     Py.mkWorld
       (Py.calls w ++ map (request (detector settings)) transactions)
       (Py.log w ++ [initialized_log]
          ++ detect_logs transactions outcomes
          ++ batch_error_log transactions outcomes)).
Proof.
  intros outcomes. unfold detect_merchants_batch, init.
  fold (detector settings).
  unfold mbind, mret, Py.M_bind, Py.M_ret, Py.bind, Py.ret, Py.logger.
  rewrite gather_detect. cbn [Py.calls Py.log]. fold outcomes.
  rewrite (filter_results_spec transactions outcomes [] transactions)
    by (reflexivity || apply outcomes_from_length).
  cbn [Py.calls Py.log app].
  rewrite <- !List.app_assoc. reflexivity.
Qed.

Lemma answer_outcome_id self tx reply d :
  answer_outcome self tx reply = inr d ->
  MerchantDetection.transaction_id d = Transaction.id tx.
Proof.
  unfold answer_outcome, parsed_outcome.
  destruct reply as [e | content]; [discriminate|]. cbn [Py.and_then].
  destruct (Py.loads content) as [e | result]; [discriminate|].
  cbn [Py.and_then].
  destruct (Py.getitem result "merchant"); [discriminate|].
  destruct (Py.getitem result "confidence"); [discriminate|].
  destruct (Py.get result "reasoning"); [discriminate|].
  cbn [Py.and_then].
  destruct (str_field _); [discriminate|].
  destruct (float_field _); [discriminate|].
  destruct (optional_str_field _); [discriminate|].
  cbn [Py.and_then]. unfold MerchantDetection.new.
  destruct (unit_interval _); [discriminate|].
  intros [= <-]. reflexivity.
Qed.

Lemma successes_ids self n txs :
  map MerchantDetection.transaction_id (successes (outcomes_from self n txs))
  = map Transaction.id (succeeded txs (outcomes_from self n txs)).
Proof.
  revert n. induction txs as [|tx txs IH]; intros n; [reflexivity|].
  cbn [outcomes_from].
  destruct (answer_outcome self tx _) as [e | d] eqn:Hout.
  - cbn [successes succeeded]. apply IH.
  - cbn [successes succeeded map]. rewrite IH.
    now rewrite (answer_outcome_id _ _ _ _ Hout).
Qed.
End BatchFacts.

Section MerchantAnswers.
Import Models Merchant.
Context `{O : Py.Outside}.

Lemma answer_outcome_failure self tx reply e :
  classifier_failure reply e -> answer_outcome self tx reply = inl e.
Proof.
  intros Hfail.
  destruct Hfail as [e | content Hp | content fields Hp Hm
                    | content fields v Hp Hm Hc];
    unfold answer_outcome, parsed_outcome, Py.loads, Py.getitem;
    cbn [Py.and_then]; try reflexivity; rewrite Hp; cbn [Py.and_then];
    try reflexivity; rewrite Hm; cbn [Py.and_then];
    try reflexivity; rewrite Hc; reflexivity.
Qed.

Lemma answer_outcome_ok self tx content fields jm jc m c r :
  Py.json_loads content = Some (Py.JObject fields) ->
  fields !! "merchant" = Some jm ->
  fields !! "confidence" = Some jc ->
  Py.validate_str jm = Some m ->
  Py.validate_float jc = Some c ->
  optional_str_field (fields !! "reasoning") = inr r ->
  0 <= c <= 1 ->
  answer_outcome self tx (inr content) =
    inr (MerchantDetection.mk (Transaction.id tx) m c (model self) r).
Proof.
  intros Hp Hm Hc Hvm Hvc Hr Hb.
  unfold answer_outcome, parsed_outcome, Py.loads, Py.getitem, Py.get,
    str_field, float_field.
  cbn [Py.and_then]. rewrite Hp. cbn [Py.and_then].
  rewrite Hm, Hc. cbn [Py.and_then]. rewrite Hvm, Hvc, Hr.
  cbn [Py.and_then]. unfold MerchantDetection.new.
  now rewrite unit_interval_ok.
Qed.

(** C8.  When the external classifier fails (the call raises, the answer
    is not parseable, or a required key is missing) the merchant detector
    raises that same exception after logging it: it returns no result, so
    no default merchant is substituted. *)
Theorem merchant_classifier_failure_propagates :
  forall self tx w e,
    classifier_failure (Py.llm (length (Py.calls w)) (request self tx)) e ->
    detect self tx w =
      (inl e,
       Py.mkWorld
         (Py.calls w ++ [request self tx])
         (Py.log w ++
            [ Py.mkLog Py.info "merchant_detection_started"
                (Some (Transaction.id tx)) None;
              Py.mkLog Py.error "merchant_detection_failed"
                (Some (Transaction.id tx)) (Some e) ])).
Proof.
  intros self tx w e Hfail.
  rewrite detect_outcome. cbv zeta.
  rewrite (answer_outcome_failure self tx _ e Hfail). reflexivity.
Qed.
End MerchantAnswers.

Section BatchClaim.
Import Models Merchant.

(** C7.  For every list of transactions the batch helper runs one
    detection, hence one provider call, per transaction, in input order,
    and never raises.  It returns the results of the detections that
    succeeded, in the order of their transactions; each detection that
    raised is left out and logged as "batch_detection_error" with the
    identifier of its transaction. *)
Theorem batch_detection_isolates_failures :
  forall (settings : Config.Settings) (O : Py.Outside)
         (transactions : list Transaction.t) (w : Py.World),
    let self := detector settings in
    let outcomes := outcomes_from self (length (Py.calls w)) transactions in
    exists w',
      detect_merchants_batch settings transactions w
        = (inr (successes outcomes), w') /\
      length outcomes = length transactions /\
      Py.calls w' = (Py.calls w ++ map (request self) transactions)%list /\
      Py.log w' = (Py.log w ++ [initialized_log]
                     ++ detect_logs transactions outcomes
                     ++ batch_error_log transactions outcomes)%list /\
      map MerchantDetection.transaction_id (successes outcomes)
        = map Transaction.id (succeeded transactions outcomes).
Proof.
  intros settings O transactions w self outcomes.
  eexists. split; [apply batch_run|].
  cbn [Py.calls Py.log].
  split; [apply outcomes_from_length|].
  split; [reflexivity|]. split; [reflexivity|].
  apply successes_ids.
Qed.
End BatchClaim.

(** ** Scripted runs of the merchant detector *)

Section MerchantRuns.
Import Models Merchant.

Lemma merchant_classifier_failure_propagates_witness :
  let tx := Scripted.tx "tx-1" "STARBUCKS #1234" 4.99 in
  let self := detector Config.defaults in
  @classifier_failure Scripted.provider_down
    (@Py.llm Scripted.provider_down
       (length (Py.calls Scripted.world0)) (request self tx))
    (Py.APIError "connection refused") /\
  fst (@detect Scripted.provider_down self tx Scripted.world0)
    = inl (Py.APIError "connection refused").
Proof.
  intros tx self.
  assert (Hfail :
    @classifier_failure Scripted.provider_down
      (@Py.llm Scripted.provider_down
         (length (Py.calls Scripted.world0)) (request self tx))
      (Py.APIError "connection refused"))
    by apply (@transport_error Scripted.provider_down).
  split; [exact Hfail|].
  rewrite (@merchant_classifier_failure_propagates Scripted.provider_down
             self tx Scripted.world0 _ Hfail).
  reflexivity.
Defined.

(** C2 as stated fails on the python-ml detector, which has no pattern
    table: the description "STARBUCKS #1234" is sent to the provider, and
    when the provider answers "unknown_merchant" with confidence 0.30 that
    answer is the result. *)
Lemma llm_merchant_detector_always_calls_provider :
  let tx := Scripted.tx "tx-1" "STARBUCKS #1234" 4.99 in
  let self := detector Config.defaults in
  PyStr.contains "STARBUCKS" (PyStr.upper (Transaction.description tx)) = true /\
  exists r w',
    @detect Scripted.unknown_merchant self tx Scripted.world0 = (inr r, w') /\
    Py.calls w' = [request self tx] /\
    MerchantDetection.merchant r = "unknown_merchant" /\
    MerchantDetection.merchant r <> "starbucks" /\
    ~ MerchantDetection.confidence r >= 0.90.
Proof.
  intros tx self. split; [reflexivity|].
  eexists _, _. split.
  - rewrite (@detect_outcome Scripted.unknown_merchant). cbv zeta.
    change (@Py.llm Scripted.unknown_merchant _ _)
      with (@inr Py.Exn string "answer-1").
    rewrite (@answer_outcome_ok Scripted.unknown_merchant self tx "answer-1"
               (Scripted.merchant_fields "unknown_merchant" 0.30)
               (Py.JString "unknown_merchant") (Py.JNumber 0.30)
               "unknown_merchant" 0.30 None);
      [reflexivity | reflexivity | reflexivity | reflexivity | reflexivity
      | reflexivity | reflexivity | lra].
  - cbn [Py.calls MerchantDetection.merchant MerchantDetection.confidence].
    split; [reflexivity|]. split; [reflexivity|].
    split; [discriminate | lra].
Qed.

(** The batch of the specification: three transactions, the second of
    which hits a provider time-out.  Two results come back, for the first
    and the third transaction, and one "batch_detection_error" is logged
    with the identifier of the second. *)
Lemma batch_of_three_second_fails :
  exists w',
    @detect_merchants_batch Config.defaults Scripted.second_fails
      Scripted.three_transactions Scripted.world0
    = (inr [ MerchantDetection.mk "tx-1" "netflix" 0.9
               "gpt-4-turbo-preview" None;
             MerchantDetection.mk "tx-3" "spotify" 0.8
               "gpt-4-turbo-preview" None ],
       w') /\
    length (Py.calls w') = 3%nat /\
    filter (fun l => String.eqb (Py.event l) "batch_detection_error")
           (Py.log w')
    = [ Py.mkLog Py.error "batch_detection_error" (Some "tx-2")
          (Some (Py.APIError "timeout")) ].
Proof.
  eexists. split.
  - rewrite (@batch_run Config.defaults Scripted.second_fails). cbv zeta.
    unfold Scripted.three_transactions.
    cbn [outcomes_from Py.calls Scripted.world0 length].
    change (@Py.llm Scripted.second_fails 0 _)
      with (@inr Py.Exn string "answer-1").
    change (@Py.llm Scripted.second_fails 1 _)
      with (@inl Py.Exn string (Py.APIError "timeout")).
    change (@Py.llm Scripted.second_fails 2 _)
      with (@inr Py.Exn string "answer-3").
    rewrite (@answer_outcome_ok Scripted.second_fails _ _ "answer-1"
               (Scripted.merchant_fields "netflix" 0.9)
               (Py.JString "netflix") (Py.JNumber 0.9) "netflix" 0.9 None)
      by (reflexivity || lra).
    rewrite (@answer_outcome_ok Scripted.second_fails _ _ "answer-3"
               (Scripted.merchant_fields "spotify" 0.8)
               (Py.JString "spotify") (Py.JNumber 0.8) "spotify" 0.8 None)
      by (reflexivity || lra).
    reflexivity.
  - cbn [Py.calls Py.log]. split; reflexivity.
Qed.
End MerchantRuns.

(** ** The category detectors *)

Section CategoryFacts.
Import Models Category.
Context `{O : Py.Outside}.

Lemma detect_fallback_ok self tx merchant w content fields jl jc label c r :
  CATEGORY_RULES !! merchant = None ->
  Py.llm (length (Py.calls w)) (category_request self tx merchant)
    = inr content ->
  Py.json_loads content = Some (Py.JObject fields) ->
  fields !! "category" = Some jl ->
  fields !! "confidence" = Some jc ->
  Py.validate_str jl = Some label ->
  Py.validate_float jc = Some c ->
  optional_str_field (fields !! "reasoning") = inr r ->
  0 <= c <= 1 ->
  detect self tx merchant w =
    (inr (CategoryDetection.mk (Transaction.id tx) label c Method.ml None
            (Some (model self)) r),
     Py.mkWorld
       (Py.calls w ++ [category_request self tx merchant])
       (Py.log w ++ [ category_log "category_detection_started" tx;
                      category_log "category_detection_llm_fallback" tx ])).
Proof.
  intros Hmiss Hreply Hp Hl Hc Hvl Hvc Hr Hb.
  unfold detect, _detect_with_llm. rewrite Hmiss.
  unfold category_request in Hreply |- *.
  destruct (provider self);
    unfold mbind, mret, Py.M_bind, Py.M_ret, Py.bind, Py.ret, Py.lift,
      Py.logger_info, Py.logger, Py.await_llm;
    cbn [Py.calls Py.log]; rewrite Hreply;
    unfold Py.loads; rewrite Hp;
    unfold Py.getitem, Py.get, str_field, float_field;
    rewrite Hl, Hc, Hvl, Hvc, Hr;
    unfold CategoryDetection.new; rewrite unit_interval_ok by exact Hb;
    cbn [Py.calls Py.log]; rewrite <- !List.app_assoc; reflexivity.
Qed.

(** C3, as the code has it.  On the fallback path the category detector
    returns the label of the provider's answer as it is: whenever the
    answer is a JSON object whose "category" is a string and whose
    "confidence" is a number between 0 and 1, the result is a success
    with that string as category and method "ml".  No test against the
    list of categories is made. *)
Theorem llm_category_label_returned_unvalidated :
  forall self tx merchant w content fields (label : string) (c : R) r,
    CATEGORY_RULES !! merchant = None ->
    Py.llm (length (Py.calls w)) (category_request self tx merchant)
      = inr content ->
    Py.json_loads content = Some (Py.JObject fields) ->
    fields !! "category" = Some (Py.JString label) ->
    fields !! "confidence" = Some (Py.JNumber c) ->
    optional_str_field (fields !! "reasoning") = inr r ->
    0 <= c <= 1 ->
    fst (detect self tx merchant w) =
      inr (CategoryDetection.mk (Transaction.id tx) label c Method.ml None
             (Some (model self)) r).
Proof.
  intros self tx merchant w content fields label c r
         Hmiss Hreply Hp Hl Hc Hr Hb.
  rewrite (detect_fallback_ok self tx merchant w content fields
             (Py.JString label) (Py.JNumber c) label c r);
    auto using Py.validate_str_string, Py.validate_float_number.
Qed.

Lemma detect_rule_hit self tx merchant rule w :
  CATEGORY_RULES !! merchant = Some rule ->
  0 <= Rule.confidence rule <= 1 ->
  detect self tx merchant w =
    (inr (CategoryDetection.mk (Transaction.id tx) (Rule.category rule)
            (Rule.confidence rule) Method.rule (Some (Rule.rule_id rule))
            None
            (Some ("Merchant '" ++ merchant ++ "' matches rule "
                   ++ Rule.rule_id rule)%string)),
     Py.mkWorld
       (Py.calls w)
       (Py.log w ++ [ category_log "category_detection_started" tx;
                      category_log "category_detection_rule_match" tx ])).
Proof.
  intros Hhit Hb. unfold detect. rewrite Hhit.
  unfold mbind, Py.M_bind, Py.bind, Py.lift, Py.logger_info, Py.logger.
  unfold CategoryDetection.new. rewrite unit_interval_ok by exact Hb.
  cbn [Py.calls Py.log]. rewrite <- !List.app_assoc. reflexivity.
Qed.

(** C9.  Given the merchant "starbucks", the python-ml category detector
    returns category "cafe" with method "rule", the rule's confidence 0.98
    and its identifier "starbucks-rule", for every transaction and without
    a provider call; the ml-service rule table maps "starbucks" to "cafe"
    too, with its fixed confidence 0.95 and method "rules". *)
Theorem starbucks_is_cafe_by_rule :
  forall self tx w,
    detect self tx "starbucks" w =
      (inr (CategoryDetection.mk (Transaction.id tx) "cafe" 0.98 Method.rule
              (Some "starbucks-rule") None
              (Some "Merchant 'starbucks' matches rule starbucks-rule")),
       Py.mkWorld
         (Py.calls w)
         (Py.log w ++ [ category_log "category_detection_started" tx;
                        category_log "category_detection_rule_match" tx ]))
    /\ MlService.detect_category_simple "starbucks" = ("cafe", 0.95)
    /\ forall mtx,
        MlService.detect_category mtx (Some "starbucks") =
          MlService.CategoryDetectionResponse.mk "cafe" 0.95 "rules".
Proof.
  intros self tx w. split; [|split].
  - rewrite (detect_rule_hit self tx "starbucks"
               (Rule.mk "cafe" 0.98 "starbucks-rule"));
      [reflexivity | reflexivity | cbn; lra].
  - reflexivity.
  - intros mtx. reflexivity.
Qed.
End CategoryFacts.

Section CategoryRuns.
Import Models Category.

Lemma llm_category_label_returned_unvalidated_witness :
  let tx := Scripted.tx "tx-1" "LUCKY STAR CASINO" 200 in
  let self := init Config.defaults in
  CATEGORY_RULES !! "lucky_star_casino" = None /\
  0 <= 0.9 <= 1 /\
  fst (@detect Scripted.off_vocabulary self tx "lucky_star_casino"
         Scripted.world0) =
    inr (CategoryDetection.mk "tx-1" "gambling" 0.9 Method.ml None
           (Some "gpt-4-turbo-preview") None).
Proof.
  intros tx self.
  assert (Hmiss : CATEGORY_RULES !! "lucky_star_casino" = None)
    by reflexivity.
  assert (Hb : 0 <= 0.9 <= 1) by lra.
  split; [exact Hmiss|]. split; [exact Hb|].
  exact (@llm_category_label_returned_unvalidated Scripted.off_vocabulary
           self tx "lucky_star_casino" Scripted.world0 "answer-1"
           (Scripted.category_fields "gambling" 0.9) "gambling" 0.9 None
           Hmiss eq_refl eq_refl eq_refl eq_refl eq_refl Hb).
Defined.

(** C3 as stated fails: the label "gambling", which is not in the list of
    categories, comes back as a successful result. *)
Lemma off_vocabulary_label_accepted :
  let tx := Scripted.tx "tx-1" "LUCKY STAR CASINO" 200 in
  let self := init Config.defaults in
  ~ In "gambling" CATEGORIES /\
  exists r w',
    @detect Scripted.off_vocabulary self tx "lucky_star_casino"
      Scripted.world0 = (inr r, w') /\
    CategoryDetection.category r = "gambling" /\
    CategoryDetection.method r = Method.ml.
Proof.
  intros tx self. split.
  - unfold CATEGORIES. simpl. intuition discriminate.
  - eexists _, _. split.
    + apply (@detect_fallback_ok Scripted.off_vocabulary self tx
               "lucky_star_casino" Scripted.world0 "answer-1"
               (Scripted.category_fields "gambling" 0.9)
               (Py.JString "gambling") (Py.JNumber 0.9) "gambling" 0.9 None);
        (reflexivity || lra).
    + split; reflexivity.
Qed.
End CategoryRuns.

(** ** The pattern matcher of ml-service *)

Section PatternFacts.
Import MlService.

Lemma match_patterns_first_match patterns text :
  match_patterns patterns text =
    match first_match patterns text with
    | Some (_, merchant) => Some (merchant, 0.95)
    | None => None
    end.
Proof.
  induction patterns as [|[pattern merchant] rest IH]; [reflexivity|].
  unfold first_match in *. cbn [match_patterns find fst].
  destruct (PyStr.contains pattern text); [reflexivity | exact IH].
Qed.

Lemma first_match_exists patterns text pattern merchant :
  In (pattern, merchant) patterns ->
  PyStr.contains pattern text = true ->
  exists p m,
    first_match patterns text = Some (p, m) /\
    In (p, m) patterns /\ PyStr.contains p text = true.
Proof.
  intros Hin Hc. unfold first_match.
  destruct (find _ patterns) as [[p m]|] eqn:Hfind.
  - exists p, m. apply find_some in Hfind. tauto.
  - exfalso. apply (find_none _ _ Hfind) in Hin.
    cbn [fst] in Hin. congruence.
Qed.

(** C2, as the code has it.  In ml-service, for every description whose
    upper-cased text contains a pattern of the table, the detection
    returns the merchant of the first such pattern in table order, with
    confidence 0.95 (at least 0.90); the endpoint tags it
    "pattern-matching"; no provider is involved.  The python-ml merchant
    detector has no table and sends every description to the provider. *)
Theorem known_pattern_detected_by_table :
  forall (description pattern merchant : string),
    In (pattern, merchant) MERCHANT_PATTERNS ->
    PyStr.contains pattern (PyStr.upper description) = true ->
    (exists p m,
        first_match MERCHANT_PATTERNS (PyStr.upper description) = Some (p, m) /\
        In (p, m) MERCHANT_PATTERNS /\
        PyStr.contains p (PyStr.upper description) = true /\
        detect_merchant_simple description = (m, 0.95) /\
        (forall id amount date,
            detect_merchant (Transaction.mk id description amount date) =
              MerchantDetectionResponse.mk m 0.95 "pattern-matching")) /\
    0.95 >= 0.90 /\
    (forall (O : Py.Outside) self tx w,
        Py.calls (snd (Merchant.detect self tx w))
          = (Py.calls w ++ [request self tx])%list).
Proof.
  intros description pattern merchant Hin Hc. split; [|split].
  - destruct (first_match_exists _ _ _ _ Hin Hc) as (p & m & Hf & Hp & Hpc).
    exists p, m.
    assert (Hd : detect_merchant_simple description = (m, 0.95)).
    { unfold detect_merchant_simple.
      rewrite match_patterns_first_match, Hf. reflexivity. }
    repeat split; try assumption.
    intros id amount date. unfold detect_merchant.
    cbn [Transaction.description]. rewrite Hd. reflexivity.
  - lra.
  - intros O self tx w. rewrite detect_outcome. reflexivity.
Qed.

Lemma known_pattern_detected_by_table_witness :
  In ("STARBUCKS", "starbucks") MERCHANT_PATTERNS /\
  PyStr.contains "STARBUCKS" (PyStr.upper "Starbucks #1234") = true /\
  detect_merchant_simple "Starbucks #1234" = ("starbucks", 0.95).
Proof.
  assert (Hin : In ("STARBUCKS", "starbucks") MERCHANT_PATTERNS)
    by (left; reflexivity).
  assert (Hc : PyStr.contains "STARBUCKS" (PyStr.upper "Starbucks #1234")
               = true) by reflexivity.
  split; [exact Hin|]. split; [exact Hc|].
  destruct (proj1 (known_pattern_detected_by_table
                     "Starbucks #1234" "STARBUCKS" "starbucks" Hin Hc))
    as (p & m & Hf & _ & _ & Hd & _).
  rewrite Hd. injection Hf as _ <-. reflexivity.
Defined.

(** When two patterns occur, the earlier one in the table wins. *)
Example earlier_pattern_wins :
  detect_merchant_simple "amazon order at Starbucks" = ("starbucks", 0.95).
Proof. reflexivity. Qed.

(** Without a pattern, the lower-cased first word comes back with
    confidence 0.30. *)
Example unknown_description :
  detect_merchant_simple "  SQ *Coffee Shop" = ("sq", 0.30)
  /\ detect_merchant_simple "   " = ("unknown", 0.30).
Proof. split; reflexivity. Qed.
End PatternFacts.


(** * Further properties of the code *)

(** ** The scorer of ml-service *)

Section ServiceScorer.
Import MlService.

Lemma svc_short amount hist :
  (length hist < 3)%nat ->
  detect_anomaly_zscore amount hist =
    (false, 0.0, Some Insufficient_historical_data).
Proof.
  intros Hn. unfold detect_anomaly_zscore.
  now replace (length hist <? 3)%nat with true
    by (symmetry; apply Nat.ltb_lt; exact Hn).
Qed.

Lemma svc_zero amount hist :
  (3 <= length hist)%nat ->
  Stats.stdev hist = 0 ->
  detect_anomaly_zscore amount hist =
    (PyFloat.neqb amount (Stats.mean hist),
     if PyFloat.neqb amount (Stats.mean hist) then 1.0 else 0.0,
     if PyFloat.neqb amount (Stats.mean hist)
     then Some (Differs_from_constant amount (Stats.mean hist)) else None).
Proof.
  intros Hn Hsd. unfold detect_anomaly_zscore.
  replace (length hist <? 3)%nat with false
    by (symmetry; apply Nat.ltb_ge; lia).
  apply eqb_true in Hsd. now rewrite Hsd.
Qed.

Lemma svc_zscore amount hist :
  (3 <= length hist)%nat ->
  Stats.stdev hist <> 0 ->
  let z := PyFloat.abs ((amount - Stats.mean hist) / Stats.stdev hist) in
  detect_anomaly_zscore amount hist =
    (PyFloat.gtb z 2.0,
     PyFloat.min (z / 3.0) 1.0,
     if PyFloat.gtb z 2.0
     then Some (Std_devs_from_mean amount z (Stats.mean hist)) else None).
Proof.
  intros Hn Hsd z. unfold detect_anomaly_zscore.
  replace (length hist <? 3)%nat with false
    by (symmetry; apply Nat.ltb_ge; lia).
  apply eqb_false in Hsd. now rewrite Hsd.
Qed.

(** The three branches cover every input. *)
Lemma svc_cases (hist : list R) :
  (length hist < 3)%nat \/
  ((3 <= length hist)%nat /\ Stats.stdev hist = 0) \/
  ((3 <= length hist)%nat /\ Stats.stdev hist <> 0).
Proof.
  destruct (Nat.lt_ge_cases (length hist) 3) as [Hs | Hl]; [now left|].
  right. destruct (Req_dec_T (Stats.stdev hist) 0); [left | right]; tauto.
Qed.


(** X2.  In the ml-service scorer the flag and the score agree: a
    transaction is reported anomalous exactly when its score is above 2/3,
    in every branch. *)
Theorem svc_anomaly_flag_iff_score_above_two_thirds :
  forall (amount : R) (hist : list R),
    fst (fst (detect_anomaly_zscore amount hist)) = true <->
    snd (fst (detect_anomaly_zscore amount hist)) > 2 / 3.
Proof.
  intros amount hist.
  destruct (svc_cases hist) as [Hs | [[Hl Hz] | [Hl Hnz]]].
  - rewrite svc_short by exact Hs. cbn [fst snd]. split; [discriminate | lra].
  - rewrite svc_zero by assumption. cbn [fst snd].
    destruct (PyFloat.neqb _ _); split; try reflexivity; try discriminate; lra.
  - rewrite svc_zscore by assumption. cbn [fst snd].
    set (z := PyFloat.abs _). rewrite gtb_true. unfold PyFloat.min.
    destruct (Rlt_dec 1.0 (z / 3.0)); split; lra.
Qed.

(** X3.  The ml-service scorer gives no reason exactly when it had at
    least 3 points and found no anomaly; with fewer points the reason is
    "Insufficient historical data", and every anomaly comes with one. *)
Theorem svc_anomaly_reason_absent_iff_cleared :
  forall (amount : R) (hist : list R),
    snd (detect_anomaly_zscore amount hist) = None <->
    (3 <= length hist)%nat /\
    fst (fst (detect_anomaly_zscore amount hist)) = false.
Proof.
  intros amount hist.
  destruct (svc_cases hist) as [Hs | [[Hl Hz] | [Hl Hnz]]].
  - rewrite svc_short by exact Hs. cbn [fst snd].
    split; [discriminate | intros [H3 _]; lia].
  - rewrite svc_zero by assumption. cbn [fst snd].
    destruct (PyFloat.neqb _ _); split; try discriminate; try tauto;
      intros [_ Hf]; discriminate.
  - rewrite svc_zscore by assumption. cbn [fst snd].
    destruct (PyFloat.gtb _ _); split; try discriminate; try tauto;
      intros [_ Hf]; discriminate.
Qed.
End ServiceScorer.

(** ** Constant histories *)

Section ConstantHistories.
Import Stats.

Lemma rsum_constant (xs : list R) c :
  (forall x, In x xs -> x = c) -> rsum xs = c * rlen xs.
Proof.
  unfold rlen. induction xs as [|x xs IH]; intros Hall.
  - simpl. ring.
  - cbn [rsum fold_right length]. fold (rsum xs).
    rewrite S_INR, IH by (intros y Hy; apply Hall; now right).
    rewrite (Hall x) by now left. ring.
Qed.

Lemma mean_constant (xs : list R) c :
  xs <> [] -> (forall x, In x xs -> x = c) -> mean xs = c.
Proof.
  intros Hne Hall. unfold mean. rewrite (rsum_constant xs c Hall).
  assert (Hpos : 0 < rlen xs).
  { unfold rlen. destruct xs; [congruence|]. apply lt_0_INR. simpl. lia. }
  field. lra.
Qed.

Lemma rsum_squares_zero (f : R -> R) xs :
  rsum (map (fun x => f x * f x) xs) = 0 -> forall x, In x xs -> f x = 0.
Proof.
  induction xs as [|y xs IH]; intros Hsum x Hin; [destruct Hin|].
  cbn [map rsum fold_right] in Hsum.
  fold (rsum (map (fun x => f x * f x) xs)) in Hsum.
  pose proof (rsum_squares_nonneg f xs) as Hrest.
  pose proof (Rle_0_sqr (f y)) as Hsq. unfold Rsqr in Hsq.
  destruct Hin as [<- | Hin].
  - apply Rsqr_0_uniq. unfold Rsqr. lra.
  - apply IH; [lra | exact Hin].
Qed.

Lemma rsum_zero_terms (f : R -> R) xs :
  (forall x, In x xs -> f x = 0) -> rsum (map (fun x => f x * f x) xs) = 0.
Proof.
  induction xs as [|y xs IH]; intros Hall; [reflexivity|].
  cbn [map rsum fold_right].
  fold (rsum (map (fun x => f x * f x) xs)).
  rewrite IH by (intros x Hx; apply Hall; now right).
  rewrite (Hall y) by now left. ring.
Qed.

(** The sum of squared deviations vanishes exactly on constant lists. *)
Lemma sq_dev_zero_iff_constant (xs : list R) :
  xs <> [] ->
  (sq_dev xs = 0 <-> exists c, forall x, In x xs -> x = c).
Proof.
  intros Hne. split.
  - intros Hz. exists (mean xs). intros x Hin.
    pose proof (rsum_squares_zero (fun x => x - mean xs) xs Hz x Hin) as H0.
    cbv beta in H0. lra.
  - intros [c Hall]. unfold sq_dev.
    apply (rsum_zero_terms (fun x => x - mean xs)).
    intros x Hin. rewrite (mean_constant xs c Hne Hall), (Hall x Hin). ring.
Qed.

Lemma three_points_nonempty (xs : list R) : (3 <= length xs)%nat -> xs <> [].
Proof. destruct xs; simpl; [lia | congruence]. Qed.
End ConstantHistories.

(** ** The anomaly detector of python-ml: reasons, calls, constant
    histories *)

Section AnomalyReasons.
Import Models Anomaly.





End AnomalyReasons.

Section ServiceConstantHistory.
Import MlService.

(** X8.  When all historical amounts (at least 3) equal one value, the
    ml-service scorer flags a transaction exactly when its amount differs
    from that value, with score 1 and a reason quoting the amount and the
    value; an equal amount gets score 0 and no reason. *)
Theorem svc_constant_history_flags_any_other_amount :
  forall (amount c : R) (hist : list R),
    (3 <= length hist)%nat ->
    (forall x, In x hist -> x = c) ->
    detect_anomaly_zscore amount hist =
      if Req_dec_T amount c
      then (false, 0.0, None)
      else (true, 1.0, Some (Differs_from_constant amount c)).
Proof.
  intros amount c hist Hn Hall.
  pose proof (three_points_nonempty hist Hn) as Hne.
  assert (Hsd : Stats.stdev hist = 0).
  { apply stdev_zero; [lia|]. apply sq_dev_zero_iff_constant; [exact Hne|].
    now exists c. }
  rewrite svc_zero by assumption.
  rewrite (mean_constant hist c Hne Hall).
  unfold PyFloat.neqb, PyFloat.eqb.
  destruct (Req_dec_T amount c); reflexivity.
Qed.

Lemma svc_constant_history_flags_any_other_amount_witness :
  (3 <= length [10; 10; 10]%R)%nat /\
  (forall x, In x [10; 10; 10] -> x = 10) /\
  detect_anomaly_zscore 50 [10; 10; 10] =
    (true, 1.0, Some (Differs_from_constant 50 10)).
Proof.
  assert (Hn : (3 <= length [10; 10; 10]%R)%nat) by (simpl; lia).
  assert (Hall : forall x, In x [10; 10; 10] -> x = 10).
  { intros x Hin. simpl in Hin.
    destruct Hin as [<- | [<- | [<- | []]]]; reflexivity. }
  split; [exact Hn|]. split; [exact Hall|].
  rewrite (svc_constant_history_flags_any_other_amount 50 10 _ Hn Hall).
  destruct (Req_dec_T 50 10); [lra | reflexivity].
Defined.
End ServiceConstantHistory.

(** ** The merchant token of ml-service *)

Section Characters.
Import PyStr.

Ltac by_cases_on c :=
  destruct c as [[] [] [] [] [] [] [] []]; reflexivity.

Lemma isspace_upper_char c : isspace (upper_char c) = isspace c.
Proof. by_cases_on c. Qed.

Lemma isspace_lower_char c : isspace (lower_char c) = isspace c.
Proof. by_cases_on c. Qed.

Lemma is_upper_lower_char c : is_upper_char (lower_char c) = false.
Proof. by_cases_on c. Qed.

Lemma lower_upper_char c : lower_char (upper_char c) = lower_char c.
Proof. by_cases_on c. Qed.

Lemma lower_upper s : lower (upper s) = lower s.
Proof.
  induction s as [|c s IH]; [reflexivity|].
  cbn [upper lower]. now rewrite lower_upper_char, IH.
Qed.

Lemma is_empty_upper s : is_empty (upper s) = is_empty s.
Proof. now destruct s. Qed.

Lemma upper_snoc s c :
  upper (s ++ String c EmptyString) = (upper s ++ String (upper_char c) EmptyString)%string.
Proof.
  induction s as [|d s IH]; [reflexivity|].
  simpl. rewrite IH. reflexivity.
Qed.

Lemma split_from_upper s :
  forall cur,
    split_from (upper cur) (upper s) = map upper (split_from cur s).
Proof.
  induction s as [|c s IH]; intros cur.
  - cbn [upper split_from]. rewrite is_empty_upper.
    now destruct (is_empty cur).
  - cbn [upper split_from]. rewrite isspace_upper_char, is_empty_upper.
    destruct (isspace c).
    + destruct (is_empty cur); cbn [map]; now rewrite <- IH.
    + rewrite <- upper_snoc. apply IH.
Qed.

Lemma split_upper s : split (upper s) = map upper (split s).
Proof. apply (split_from_upper s EmptyString). Qed.

Lemma all_chars_snoc p s c :
  all_chars p (s ++ String c EmptyString) = all_chars p s && p c.
Proof.
  induction s as [|d s IH].
  - simpl. now rewrite andb_true_r.
  - simpl. now rewrite IH, andb_assoc.
Qed.

Lemma is_empty_snoc s c : is_empty (s ++ String c EmptyString) = false.
Proof. now destruct s. Qed.

(** Every word [split] returns is non-empty and free of whitespace. *)
Lemma split_from_words s :
  forall cur,
    all_chars (fun c => negb (isspace c)) cur = true ->
    Forall (fun w => is_empty w = false /\
                     all_chars (fun c => negb (isspace c)) w = true)
           (split_from cur s).
Proof.
  induction s as [|c s IH]; intros cur Hcur.
  - cbn [split_from]. destruct (is_empty cur) eqn:He; constructor; auto.
  - cbn [split_from]. destruct (isspace c) eqn:Hc.
    + destruct (is_empty cur) eqn:He.
      * now apply IH.
      * constructor; [auto | now apply IH].
    + apply IH. rewrite all_chars_snoc, Hcur, Hc. reflexivity.
Qed.

Lemma canonical_lower_word w :
  is_empty w = false ->
  all_chars (fun c => negb (isspace c)) w = true ->
  canonical_token (lower w) = true.
Proof.
  intros Hne Hns. unfold canonical_token.
  replace (is_empty (lower w)) with false by (now destruct w).
  cbn [negb andb]. clear Hne.
  induction w as [|c w IH]; [reflexivity|].
  cbn [all_chars lower] in *. apply andb_true_iff in Hns as [Hc Hw].
  rewrite isspace_lower_char, Hc, is_upper_lower_char. cbn [negb andb].
  now apply IH.
Qed.
End Characters.

Section ServiceMerchant.
Import MlService.

(** The merchant of the fallback: the lower-cased first word, or
    "unknown". *)
Lemma detect_merchant_simple_cases description :
  detect_merchant_simple description =
    match first_match MERCHANT_PATTERNS (PyStr.upper description) with
    | Some (_, merchant) => (merchant, 0.95)
    | None => (PyStr.lower (hd "UNKNOWN" (PyStr.split description)), 0.30)
    end.
Proof.
  unfold detect_merchant_simple. rewrite match_patterns_first_match.
  destruct (first_match _ _) as [[p m]|]; [reflexivity|].
  now destruct (PyStr.split description).
Qed.

Lemma table_merchants_canonical pattern merchant :
  In (pattern, merchant) MERCHANT_PATTERNS ->
  canonical_token merchant = true /\
  exists category,
    CATEGORY_RULES !! merchant = Some category /\
    detect_category_simple merchant = (category, 0.95).
Proof.
  intros Hin. unfold MERCHANT_PATTERNS in Hin. cbn [In] in Hin.
  repeat (destruct Hin as [Hin | Hin];
          [ injection Hin as <- <-;
            split; [reflexivity | eexists; split; reflexivity] |]).
  destruct Hin.
Qed.

(** X12.  For an ASCII description, the confidence of the ml-service
    merchant detection tells which path was taken: it is 0.95 exactly when
    some pattern of the table occurs in the upper-cased description, and
    0.30 otherwise. *)
Theorem svc_merchant_confidence_tells_pattern_hit :
  forall description : string,
    is_ascii description = true ->
    (snd (detect_merchant_simple description) = 0.95 <->
     exists pattern merchant,
       In (pattern, merchant) MERCHANT_PATTERNS /\
       PyStr.contains pattern (PyStr.upper description) = true) /\
    (snd (detect_merchant_simple description) = 0.30 <->
     forall pattern merchant,
       In (pattern, merchant) MERCHANT_PATTERNS ->
       PyStr.contains pattern (PyStr.upper description) = false).
Proof.
  intros description _. rewrite detect_merchant_simple_cases.
  destruct (first_match MERCHANT_PATTERNS (PyStr.upper description))
    as [[p m]|] eqn:Hf.
  - unfold first_match in Hf. apply find_some in Hf as [Hin Hc].
    cbn [fst] in Hc. cbn [snd]. split; split.
    + intros _. now exists p, m.
    + reflexivity.
    + intros H. lra.
    + intros Hnone. rewrite (Hnone p m Hin) in Hc. discriminate.
  - cbn [snd]. split; split.
    + intros H. lra.
    + intros (p & m & Hin & Hc).
      apply (find_none _ _ Hf) in Hin. cbn [fst] in Hin. congruence.
    + intros _ p m Hin. apply (find_none _ _ Hf) in Hin. exact Hin.
    + reflexivity.
Qed.

Lemma svc_merchant_confidence_tells_pattern_hit_witness :
  is_ascii "SQ *COFFEE SHOP" = true /\
  snd (detect_merchant_simple "SQ *COFFEE SHOP") = 0.30.
Proof.
  assert (Ha : is_ascii "SQ *COFFEE SHOP" = true) by reflexivity.
  split; [exact Ha|].
  apply (proj2 (svc_merchant_confidence_tells_pattern_hit _ Ha)).
  intros pattern merchant Hin. unfold MERCHANT_PATTERNS in Hin.
  cbn [In] in Hin.
  repeat (destruct Hin as [Hin | Hin]; [injection Hin as <- <-; reflexivity|]).
  destruct Hin.
Defined.

(** X13.  For every ASCII description the ml-service merchant detection
    returns a canonical token: not empty, without whitespace and without
    upper-case letters, on the table path and on the first-word path
    alike. *)
Theorem svc_merchant_is_canonical_token :
  forall description : string,
    is_ascii description = true ->
    canonical_token (fst (detect_merchant_simple description)) = true.
Proof.
  intros description _. rewrite detect_merchant_simple_cases.
  destruct (first_match MERCHANT_PATTERNS (PyStr.upper description))
    as [[p m]|] eqn:Hf.
  - unfold first_match in Hf. apply find_some in Hf as [Hin _].
    cbn [fst]. exact (proj1 (table_merchants_canonical p m Hin)).
  - cbn [fst].
    pose proof (split_from_words description EmptyString eq_refl) as Hwords.
    fold (PyStr.split description) in Hwords.
    destruct (PyStr.split description) as [|w ws]; [reflexivity|].
    cbn [hd]. apply Forall_inv in Hwords as [Hne Hns].
    now apply canonical_lower_word.
Qed.

Lemma svc_merchant_is_canonical_token_witness :
  is_ascii "  Joe's  Diner #12" = true /\
  fst (detect_merchant_simple "  Joe's  Diner #12") = "joe's" /\
  canonical_token (fst (detect_merchant_simple "  Joe's  Diner #12")) = true.
Proof.
  assert (Ha : is_ascii "  Joe's  Diner #12" = true) by reflexivity.
  split; [exact Ha|]. split; [reflexivity|].
  exact (svc_merchant_is_canonical_token _ Ha).
Defined.

(** X14.  The ml-service merchant detection ignores letter case: two
    ASCII descriptions that differ only in case get the same merchant and
    the same confidence. *)
Theorem svc_merchant_ignores_case :
  forall d1 d2 : string,
    is_ascii d1 = true -> is_ascii d2 = true ->
    PyStr.upper d1 = PyStr.upper d2 ->
    detect_merchant_simple d1 = detect_merchant_simple d2.
Proof.
  intros d1 d2 _ _ Hup.
  assert (Hword : forall d,
    PyStr.lower (hd "UNKNOWN" (PyStr.split d)) =
    PyStr.lower (hd "UNKNOWN" (PyStr.split (PyStr.upper d)))).
  { intros d. rewrite split_upper.
    destruct (PyStr.split d) as [|w ws]; [reflexivity|].
    cbn [map hd]. now rewrite lower_upper. }
  rewrite !detect_merchant_simple_cases, (Hword d1), (Hword d2), Hup.
  reflexivity.
Qed.

Lemma svc_merchant_ignores_case_witness :
  is_ascii "joe's diner" = true /\
  is_ascii "JOE'S Diner" = true /\
  detect_merchant_simple "joe's diner" = detect_merchant_simple "JOE'S Diner".
Proof.
  assert (H1 : is_ascii "joe's diner" = true) by reflexivity.
  assert (H2 : is_ascii "JOE'S Diner" = true) by reflexivity.
  split; [exact H1|]. split; [exact H2|].
  exact (svc_merchant_ignores_case _ _ H1 H2 eq_refl).
Defined.

(** X15.  The two tables of ml-service fit together: when the category
    endpoint gets no merchant (or an empty one) and the description
    contains a known pattern, the merchant it infers always has a category
    rule, so the answer has confidence 0.95 and is never
    "uncategorized". *)
Theorem svc_category_of_known_pattern :
  forall (transaction : Transaction.t) (pattern merchant : string),
    In (pattern, merchant) MERCHANT_PATTERNS ->
    PyStr.contains pattern
      (PyStr.upper (Transaction.description transaction)) = true ->
    exists category,
      CATEGORY_RULES !!
        fst (detect_merchant_simple (Transaction.description transaction))
        = Some category /\
      detect_category transaction None =
        CategoryDetectionResponse.mk category 0.95 "rules" /\
      detect_category transaction (Some EmptyString) =
        CategoryDetectionResponse.mk category 0.95 "rules".
Proof.
  intros transaction pattern merchant Hin Hc.
  destruct (first_match_exists _ _ _ _ Hin Hc) as (p & m & Hf & Hp & _).
  assert (Hd : detect_merchant_simple (Transaction.description transaction)
               = (m, 0.95))
    by (rewrite detect_merchant_simple_cases, Hf; reflexivity).
  destruct (table_merchants_canonical p m Hp) as [_ (category & Hrule & Hcat)].
  exists category. unfold detect_category. cbn [PyStr.is_empty].
  rewrite Hd. cbn [fst]. rewrite Hcat. auto.
Qed.

Lemma svc_category_of_known_pattern_witness :
  let transaction :=
    Transaction.mk "tx-1" "Netflix.com 866-579-7172" 15.99 "2024-03-20" in
  In ("NETFLIX", "netflix") MERCHANT_PATTERNS /\
  PyStr.contains "NETFLIX"
    (PyStr.upper (Transaction.description transaction)) = true /\
  detect_category transaction None =
    CategoryDetectionResponse.mk "entertainment" 0.95 "rules".
Proof.
  intros transaction.
  assert (Hin : In ("NETFLIX", "netflix") MERCHANT_PATTERNS)
    by (unfold MERCHANT_PATTERNS; cbn [In]; tauto).
  assert (Hc : PyStr.contains "NETFLIX"
                 (PyStr.upper (Transaction.description transaction)) = true)
    by reflexivity.
  split; [exact Hin|]. split; [exact Hc|].
  destruct (svc_category_of_known_pattern transaction _ _ Hin Hc)
    as (category & Hrule & Hnone & _).
  rewrite Hnone. f_equal.
  change (CATEGORY_RULES !! "netflix" = Some category) in Hrule.
  injection Hrule as <-. reflexivity.
Defined.
End ServiceMerchant.

(** ** The category detector of python-ml: rules and fallback *)

Section CategoryPaths.
Import Models Category.
Context `{O : Py.Outside}.

Lemma category_rules_entries merchant rule :
  CATEGORY_RULES !! merchant = Some rule ->
  In (Rule.category rule) CATEGORIES /\
  0.90 <= Rule.confidence rule <= 0.98.
Proof.
  intros Hlook. unfold CATEGORY_RULES in Hlook.
  apply elem_of_list_to_map_2 in Hlook.
  repeat (apply elem_of_cons in Hlook as [Hlook | Hlook];
          [ injection Hlook as -> ->; split;
            [ unfold CATEGORIES; cbn [In Rule.category]; tauto
            | cbn [Rule.confidence]; lra ] |]).
  now apply elem_of_nil in Hlook.
Qed.

Lemma detect_fallback_outcome self tx merchant w :
  CATEGORY_RULES !! merchant = None ->
  detect self tx merchant w =
    (category_answer_outcome self tx
       (Py.llm (length (Py.calls w)) (category_request self tx merchant)),
     Py.mkWorld
       (Py.calls w ++ [category_request self tx merchant])
       (Py.log w ++ [ category_log "category_detection_started" tx;
                      category_log "category_detection_llm_fallback" tx ])).
Proof.
  intros Hmiss. unfold detect, _detect_with_llm. rewrite Hmiss.
  unfold category_request, category_answer_outcome, category_parsed_outcome,
    category_log.
  destruct (provider self);
    unfold mbind, mret, Py.M_bind, Py.M_ret, Py.bind, Py.ret, Py.lift,
      Py.logger_info, Py.logger, Py.await_llm;
    cbn [Py.calls Py.log]; rewrite <- !List.app_assoc; cbn [app];
    (destruct (Py.llm _ _) as [e | content]; [reflexivity|]);
    cbn [Py.and_then];
    (destruct (Py.loads content) as [e | result]; [reflexivity|]);
    cbn [Py.and_then];
    (destruct (Py.getitem result "category"); [reflexivity|]);
    cbn [Py.and_then];
    (destruct (Py.getitem result "confidence"); [reflexivity|]);
    cbn [Py.and_then];
    (destruct (Py.get result "reasoning"); [reflexivity|]);
    cbn [Py.and_then];
    (destruct (str_field _); [reflexivity|]);
    cbn [Py.and_then];
    (destruct (float_field _); [reflexivity|]);
    cbn [Py.and_then];
    (destruct (optional_str_field _); [reflexivity|]);
    cbn [Py.and_then];
    destruct (CategoryDetection.new _ _ _ _ _ _ _); reflexivity.
Qed.

(** X16.  Every rule of the python-ml category table answers without the
    provider and inside the vocabulary: for a merchant of the table the
    detector returns the rule's category, which is one of the listed
    categories, with method "rule", the rule's identifier and a confidence
    between 0.90 and 0.98; no provider call is made. *)
Theorem llm_category_rule_hit_in_vocabulary :
  forall self tx (merchant : string) rule w,
    CATEGORY_RULES !! merchant = Some rule ->
    In (Rule.category rule) CATEGORIES /\
    0.90 <= Rule.confidence rule <= 0.98 /\
    exists r w',
      detect self tx merchant w = (inr r, w') /\
      CategoryDetection.category r = Rule.category rule /\
      CategoryDetection.confidence r = Rule.confidence rule /\
      CategoryDetection.method r = Method.rule /\
      CategoryDetection.rule_id r = Some (Rule.rule_id rule) /\
      CategoryDetection.model r = None /\
      Py.calls w' = Py.calls w.
Proof.
  intros self tx merchant rule w Hhit.
  destruct (category_rules_entries merchant rule Hhit) as [Hin Hb].
  split; [exact Hin|]. split; [exact Hb|].
  eexists _, _. split; [apply (detect_rule_hit self tx merchant rule w Hhit); lra|].
  cbn. repeat split.
Qed.

(** X17.  The python-ml category detector calls the provider exactly when
    the merchant has no rule, and then exactly once, whether the fallback
    succeeds or fails. *)
Theorem llm_category_calls_provider_iff_no_rule :
  forall self tx (merchant : string) w,
    Py.calls (snd (detect self tx merchant w)) =
      (Py.calls w ++
       match CATEGORY_RULES !! merchant with
       | Some _ => []
       | None => [category_request self tx merchant]
       end)%list.
Proof.
  intros self tx merchant w.
  destruct (CATEGORY_RULES !! merchant) as [rule|] eqn:Hlook.
  - destruct (category_rules_entries merchant rule Hlook) as [_ Hb].
    rewrite (detect_rule_hit self tx merchant rule w Hlook) by lra.
    cbn [snd Py.calls]. now rewrite List.app_nil_r.
  - now rewrite detect_fallback_outcome.
Qed.

(** X18.  On the fallback path the category detector has no handler of its
    own: whatever exception the provider call, the parsing or the
    validation raises comes out unchanged, after one provider call, and
    the detector's log holds only the "started" and "llm_fallback"
    records, no error record. *)
Theorem llm_category_fallback_failure_propagates_unlogged :
  forall self tx (merchant : string) w e,
    CATEGORY_RULES !! merchant = None ->
    category_answer_outcome self tx
      (Py.llm (length (Py.calls w)) (category_request self tx merchant))
      = inl e ->
    detect self tx merchant w =
      (inl e,
       Py.mkWorld
         (Py.calls w ++ [category_request self tx merchant])
         (Py.log w ++ [ category_log "category_detection_started" tx;
                        category_log "category_detection_llm_fallback" tx ])).
Proof.
  intros self tx merchant w e Hmiss Hfail.
  rewrite detect_fallback_outcome by exact Hmiss. now rewrite Hfail.
Qed.
End CategoryPaths.

Section CategoryPathRuns.
Import Models Category.

Lemma llm_category_rule_hit_in_vocabulary_witness :
  CATEGORY_RULES !! "walmart" = Some (Rule.mk "groceries" 0.90 "walmart-rule") /\
  In "groceries" CATEGORIES.
Proof.
  assert (Hhit : CATEGORY_RULES !! "walmart"
                 = Some (Rule.mk "groceries" 0.90 "walmart-rule"))
    by reflexivity.
  split; [exact Hhit|].
  exact (proj1 (@llm_category_rule_hit_in_vocabulary Scripted.provider_down
                  (init Config.defaults)
                  (Scripted.tx "tx-1" "WAL-MART #4521" 82.13)
                  "walmart" _ Scripted.world0 Hhit)).
Defined.

Lemma llm_category_fallback_failure_propagates_unlogged_witness :
  let tx := Scripted.tx "tx-1" "NETFLIX.COM" 15.99 in
  let self := init Config.defaults in
  CATEGORY_RULES !! "netflix" = None /\
  fst (@detect Scripted.provider_down self tx "netflix" Scripted.world0)
    = inl (Py.APIError "connection refused").
Proof.
  intros tx self.
  assert (Hmiss : CATEGORY_RULES !! "netflix" = None) by reflexivity.
  split; [exact Hmiss|].
  rewrite (@llm_category_fallback_failure_propagates_unlogged
             Scripted.provider_down self tx "netflix" Scripted.world0
             (Py.APIError "connection refused") Hmiss eq_refl).
  reflexivity.
Defined.
End CategoryPathRuns.

(** ** The merchant detector of python-ml: what a success is *)

Section MerchantSuccess.
Import Models Merchant.
Context `{O : Py.Outside}.

Lemma answer_outcome_inv self tx reply r :
  answer_outcome self tx reply = inr r ->
  exists content fields jm jc,
    reply = inr content /\
    Py.json_loads content = Some (Py.JObject fields) /\
    fields !! "merchant" = Some jm /\
    fields !! "confidence" = Some jc /\
    Py.validate_str jm = Some (MerchantDetection.merchant r) /\
    Py.validate_float jc = Some (MerchantDetection.confidence r) /\
    0 <= MerchantDetection.confidence r <= 1 /\
    MerchantDetection.transaction_id r = Transaction.id tx /\
    MerchantDetection.model r = model self.
Proof.
  unfold answer_outcome, parsed_outcome, Py.loads, Py.getitem, Py.get,
    str_field, float_field.
  destruct reply as [e | content]; [discriminate|]. cbn [Py.and_then].
  destruct (Py.json_loads content) as [result|] eqn:Hp; [|discriminate].
  cbn [Py.and_then].
  destruct result as [| | | | |fields]; try discriminate.
  destruct (fields !! "merchant") as [jm|] eqn:Hm; [|discriminate].
  cbn [Py.and_then].
  destruct (fields !! "confidence") as [jc|] eqn:Hc; [|discriminate].
  cbn [Py.and_then].
  destruct (Py.validate_str jm) as [m|] eqn:Hvm; [|discriminate].
  cbn [Py.and_then].
  destruct (Py.validate_float jc) as [c|] eqn:Hvc; [|discriminate].
  cbn [Py.and_then].
  destruct (optional_str_field _) as [e | reasoning]; [discriminate|].
  cbn [Py.and_then]. unfold MerchantDetection.new.
  destruct (unit_interval c) as [e | c'] eqn:Hu; [discriminate|].
  apply unit_interval_inv in Hu as [-> Hb].
  intros [= <-].
  cbn [MerchantDetection.merchant MerchantDetection.confidence
         MerchantDetection.transaction_id MerchantDetection.model].
  exists content, fields, jm, jc.
  repeat split; first [reflexivity | assumption | lra].
Qed.

(** X19.  A result of the merchant detector is never partially filled:
    whenever a detection returns, the result carries the identifier of the
    transaction, the model of the detector and a confidence between 0 and
    1; the provider was called once and answered with a JSON object holding
    both required keys; the log shows "started" then "completed". *)
Theorem llm_merchant_success_is_schema_valid :
  forall self tx w r w',
    detect self tx w = (inr r, w') ->
    MerchantDetection.transaction_id r = Transaction.id tx /\
    MerchantDetection.model r = model self /\
    0 <= MerchantDetection.confidence r <= 1 /\
    (exists content fields,
        Py.llm (length (Py.calls w)) (request self tx) = inr content /\
        Py.json_loads content = Some (Py.JObject fields) /\
        is_Some (fields !! "merchant") /\
        is_Some (fields !! "confidence")) /\
    Py.calls w' = (Py.calls w ++ [request self tx])%list /\
    Py.log w' =
      (Py.log w ++
       [ Py.mkLog Py.info "merchant_detection_started"
           (Some (Transaction.id tx)) None;
         Py.mkLog Py.info "merchant_detection_completed"
           (Some (Transaction.id tx)) None ])%list.
Proof.
  intros self tx w r w' Hrun.
  rewrite detect_outcome in Hrun. cbv zeta in Hrun.
  injection Hrun as Hout Hw. subst w'.
  destruct (answer_outcome_inv _ _ _ _ Hout)
    as (content & fields & jm & jc & Hreply & Hp & Hm & Hc & _ & _ & Hb
        & Hid & Hmodel).
  repeat split; try assumption; try lra.
  - exists content, fields. rewrite Hm, Hc. repeat split; eauto.
  - cbn [Py.log]. now rewrite Hout.
Qed.

(** X20.  A confidence outside [0, 1] in the provider's answer is
    rejected, not clamped: the detection raises a validation error. *)
Theorem llm_merchant_confidence_out_of_range_rejected :
  forall self tx w content fields (label : string) (c : R),
    Py.llm (length (Py.calls w)) (request self tx) = inr content ->
    Py.json_loads content = Some (Py.JObject fields) ->
    fields !! "merchant" = Some (Py.JString label) ->
    fields !! "confidence" = Some (Py.JNumber c) ->
    c < 0 \/ 1 < c ->
    fst (detect self tx w) = inl Py.ValidationError.
Proof.
  intros self tx w content fields label c Hreply Hp Hm Hc Hout.
  rewrite detect_outcome. cbv zeta. cbn [fst]. rewrite Hreply.
  unfold answer_outcome, parsed_outcome, Py.loads, Py.getitem, Py.get,
    str_field, float_field.
  cbn [Py.and_then]. rewrite Hp. cbn [Py.and_then].
  rewrite Hm, Hc. cbn [Py.and_then].
  rewrite Py.validate_str_string, Py.validate_float_number.
  cbn [Py.and_then].
  destruct (optional_str_field (fields !! "reasoning")) as [e | reasoning] eqn:Hr.
  - unfold optional_str_field in Hr.
    destruct (fields !! "reasoning") as [[]|]; try discriminate;
      destruct (Py.validate_str _); try discriminate;
      injection Hr as <-; reflexivity.
  - cbn [Py.and_then]. unfold MerchantDetection.new.
    destruct (unit_interval c) as [e | c'] eqn:Hu.
    + unfold unit_interval in Hu.
      destruct (PyFloat.geb c 0.0 && PyFloat.leb c 1.0); [discriminate|].
      now injection Hu as <-.
    + apply unit_interval_inv in Hu. lra.
Qed.

(** X21.  The label of the provider's answer is not normalised: whenever
    the answer is a JSON object whose "merchant" is a string and whose
    "confidence" is a number between 0 and 1, that string is the merchant
    of the result, character for character. *)
Theorem llm_merchant_label_returned_as_is :
  forall self tx w content fields (label : string) (c : R) reasoning,
    Py.llm (length (Py.calls w)) (request self tx) = inr content ->
    Py.json_loads content = Some (Py.JObject fields) ->
    fields !! "merchant" = Some (Py.JString label) ->
    fields !! "confidence" = Some (Py.JNumber c) ->
    optional_str_field (fields !! "reasoning") = inr reasoning ->
    0 <= c <= 1 ->
    fst (detect self tx w) =
      inr (MerchantDetection.mk (Transaction.id tx) label c (model self)
             reasoning).
Proof.
  intros self tx w content fields label c reasoning Hreply Hp Hm Hc Hr Hb.
  rewrite detect_outcome. cbv zeta. cbn [fst]. rewrite Hreply.
  apply (answer_outcome_ok self tx content fields
           (Py.JString label) (Py.JNumber c));
    auto using Py.validate_str_string, Py.validate_float_number.
Qed.
End MerchantSuccess.

Section MerchantSuccessRuns.
Import Models Merchant.

Lemma llm_merchant_success_is_schema_valid_witness :
  let tx := Scripted.tx "tx-1" "STARBUCKS #1234" 4.99 in
  let self := detector Config.defaults in
  exists r w',
    @detect Scripted.unknown_merchant self tx Scripted.world0 = (inr r, w') /\
    MerchantDetection.transaction_id r = "tx-1" /\
    0 <= MerchantDetection.confidence r <= 1.
Proof.
  intros tx self.
  destruct (@detect Scripted.unknown_merchant self tx Scripted.world0)
    as [[e | r] w'] eqn:Hrun.
  - exfalso.
    rewrite (@detect_outcome Scripted.unknown_merchant) in Hrun.
    cbv zeta in Hrun.
    change (@Py.llm Scripted.unknown_merchant _ _)
      with (@inr Py.Exn string "answer-1") in Hrun.
    rewrite (@answer_outcome_ok Scripted.unknown_merchant self tx "answer-1"
               (Scripted.merchant_fields "unknown_merchant" 0.30)
               (Py.JString "unknown_merchant") (Py.JNumber 0.30)
               "unknown_merchant" 0.30 None) in Hrun
      by (reflexivity || lra).
    discriminate.
  - exists r, w'. split; [reflexivity|].
    destruct (@llm_merchant_success_is_schema_valid Scripted.unknown_merchant
                self tx Scripted.world0 r w' Hrun) as (Hid & _ & Hb & _).
    split; [exact Hid | exact Hb].
Defined.

Lemma llm_merchant_confidence_out_of_range_rejected_witness :
  let tx := Scripted.tx "tx-1" "STARBUCKS #1234" 4.99 in
  let self := detector Config.defaults in
  (1.5 < 0 \/ 1 < 1.5) /\
  fst (@detect overconfident self tx Scripted.world0)
    = inl Py.ValidationError.
Proof.
  intros tx self.
  assert (Hout : 1.5 < 0 \/ 1 < 1.5) by (right; lra).
  split; [exact Hout|].
  exact (@llm_merchant_confidence_out_of_range_rejected overconfident
           self tx Scripted.world0 "answer-1"
           (Scripted.merchant_fields "starbucks" 1.5) "starbucks" 1.5
           eq_refl eq_refl eq_refl eq_refl Hout).
Defined.

Lemma llm_merchant_label_returned_as_is_witness :
  let tx := Scripted.tx "tx-1" "STARBUCKS #1234" 4.99 in
  let self := detector Config.defaults in
  0 <= 0.9 <= 1 /\
  canonical_token "Star Bucks" = false /\
  fst (@detect free_text_label self tx Scripted.world0) =
    inr (MerchantDetection.mk "tx-1" "Star Bucks" 0.9 "gpt-4-turbo-preview"
           None).
Proof.
  intros tx self.
  assert (Hb : 0 <= 0.9 <= 1) by lra.
  split; [exact Hb|]. split; [reflexivity|].
  exact (@llm_merchant_label_returned_as_is free_text_label
           self tx Scripted.world0 "answer-1"
           (Scripted.merchant_fields "Star Bucks" 0.9) "Star Bucks" 0.9 None
           eq_refl eq_refl eq_refl eq_refl eq_refl Hb).
Defined.
End MerchantSuccessRuns.

(** ** The batch helper: every transaction is accounted for *)

Section BatchAccounting.
Import Models Merchant.
Context (settings : Config.Settings) `{O : Py.Outside}.

Lemma successes_failures_length {A} (txs : list Transaction.t)
      (outcomes : list (Py.Exn + A)) :
  length outcomes = length txs ->
  (length (successes outcomes) + length (batch_error_log txs outcomes)
   = length txs)%nat.
Proof.
  revert txs. induction outcomes as [|o outcomes IH]; intros txs Hlen.
  - destruct txs; [reflexivity | discriminate].
  - destruct txs as [|tx txs]; [discriminate|]. injection Hlen as Hlen.
    destruct o; cbn [successes batch_error_log length];
      rewrite <- (IH txs Hlen); lia.
Qed.

Lemma filter_detect_logs txs outcomes :
  List.filter is_batch_error (detect_logs txs outcomes) = [].
Proof.
  revert outcomes. induction txs as [|tx txs IH]; intros outcomes;
    [reflexivity|].
  destruct outcomes as [|o outcomes]; [reflexivity|].
  cbn [detect_logs]. rewrite List.filter_app, IH.
  now destruct o.
Qed.

Lemma filter_batch_error_log {A} txs (outcomes : list (Py.Exn + A)) :
  List.filter is_batch_error (batch_error_log txs outcomes)
  = batch_error_log txs outcomes.
Proof.
  revert outcomes. induction txs as [|tx txs IH]; intros outcomes;
    [reflexivity|].
  destruct outcomes as [|[e | a] outcomes]; [reflexivity | |].
  - cbn [batch_error_log List.filter]. unfold is_batch_error at 1.
    cbn [Py.event]. cbn [String.eqb Ascii.eqb Bool.eqb andb].
    now rewrite IH.
  - cbn [batch_error_log]. apply IH.
Qed.

(** X22.  The batch helper accounts for every transaction: the number of
    results it returns plus the number of "batch_detection_error" records
    it adds to the log equals the number of transactions. *)
Theorem batch_results_plus_errors_is_input_size :
  forall (transactions : list Transaction.t) (w : Py.World),
  exists detections new_log w',
    detect_merchants_batch settings transactions w = (inr detections, w') /\
    Py.log w' = (Py.log w ++ new_log)%list /\
    (length detections + length (List.filter is_batch_error new_log)
     = length transactions)%nat.
Proof.
  intros transactions w.
  eexists _, _, _. split; [apply batch_run|]. cbv zeta.
  cbn [Py.log]. split; [reflexivity|].
  rewrite !List.filter_app, filter_detect_logs, filter_batch_error_log.
  cbn [List.filter is_batch_error initialized_log Py.event].
  cbn [String.eqb Ascii.eqb Bool.eqb andb app].
  apply successes_failures_length, outcomes_from_length.
Qed.

Lemma all_succeeded {A} txs (outcomes : list (Py.Exn + A)) :
  length outcomes = length txs ->
  Forall (fun o => exists a, o = inr a) outcomes ->
  succeeded txs outcomes = txs /\ batch_error_log txs outcomes = [].
Proof.
  revert txs. induction outcomes as [|o outcomes IH]; intros txs Hlen Hall.
  - destruct txs; [split; reflexivity | discriminate].
  - destruct txs as [|tx txs]; [discriminate|]. injection Hlen as Hlen.
    apply Forall_cons_iff in Hall as [[a ->] Hall].
    destruct (IH txs Hlen Hall) as [Hs Hb].
    cbn [succeeded batch_error_log]. now rewrite Hs, Hb.
Qed.

(** X23.  When no detection of the batch fails, the results line up with
    the input: one result per transaction, at its position, carrying its
    identifier, and no "batch_detection_error" is logged. *)
Theorem batch_without_failure_lines_up_with_input :
  forall (transactions : list Transaction.t) (w : Py.World),
    Forall (fun o => exists d, o = inr d)
           (outcomes_from (detector settings) (length (Py.calls w))
                          transactions) ->
    exists detections w',
      detect_merchants_batch settings transactions w = (inr detections, w') /\
      map MerchantDetection.transaction_id detections
        = map Transaction.id transactions /\
      List.filter is_batch_error (Py.log w')
        = List.filter is_batch_error (Py.log w).
Proof.
  intros transactions w Hall.
  pose proof (outcomes_from_length (detector settings)
                (length (Py.calls w)) transactions) as Hlen.
  destruct (all_succeeded transactions _ Hlen Hall) as [Hs Hb].
  eexists _, _. split; [apply batch_run|]. cbv zeta. split.
  - rewrite successes_ids, Hs. reflexivity.
  - cbn [Py.log]. rewrite Hb, !List.filter_app, filter_detect_logs.
    cbn [List.filter is_batch_error initialized_log Py.event].
    cbn [String.eqb Ascii.eqb Bool.eqb andb app].
    now rewrite !List.app_nil_r.
Qed.
End BatchAccounting.

Section BatchAccountingRuns.
Import Models Merchant.

Lemma batch_without_failure_lines_up_with_input_witness :
  Forall (fun o => exists d, o = inr d)
         (@outcomes_from all_answer (detector Config.defaults)
            (length (Py.calls Scripted.world0))
            Scripted.three_transactions) /\
  exists detections w',
    @detect_merchants_batch Config.defaults all_answer
      Scripted.three_transactions Scripted.world0 = (inr detections, w') /\
    map MerchantDetection.transaction_id detections = ["tx-1"; "tx-2"; "tx-3"] /\
    map MerchantDetection.merchant detections
      = ["netflix"; "unknown_merchant"; "spotify"].
Proof.
  assert (Hout :
    @outcomes_from all_answer (detector Config.defaults)
      (length (Py.calls Scripted.world0)) Scripted.three_transactions
    = [ inr (MerchantDetection.mk "tx-1" "netflix" 0.9
               "gpt-4-turbo-preview" None);
        inr (MerchantDetection.mk "tx-2" "unknown_merchant" 0.3
               "gpt-4-turbo-preview" None);
        inr (MerchantDetection.mk "tx-3" "spotify" 0.8
               "gpt-4-turbo-preview" None) ]).
  { unfold Scripted.three_transactions.
    cbn [outcomes_from Py.calls Scripted.world0 length].
    change (@Py.llm all_answer 0 _) with (@inr Py.Exn string "answer-1").
    change (@Py.llm all_answer 1 _) with (@inr Py.Exn string "answer-2").
    change (@Py.llm all_answer 2 _) with (@inr Py.Exn string "answer-3").
    rewrite (@answer_outcome_ok all_answer _ _ "answer-1"
               (Scripted.merchant_fields "netflix" 0.9)
               (Py.JString "netflix") (Py.JNumber 0.9) "netflix" 0.9 None)
      by (reflexivity || lra).
    rewrite (@answer_outcome_ok all_answer _ _ "answer-2"
               (Scripted.merchant_fields "unknown_merchant" 0.3)
               (Py.JString "unknown_merchant") (Py.JNumber 0.3)
               "unknown_merchant" 0.3 None)
      by (reflexivity || lra).
    rewrite (@answer_outcome_ok all_answer _ _ "answer-3"
               (Scripted.merchant_fields "spotify" 0.8)
               (Py.JString "spotify") (Py.JNumber 0.8) "spotify" 0.8 None)
      by (reflexivity || lra).
    reflexivity. }
  assert (Hall : Forall (fun o => exists d, o = inr d)
                   (@outcomes_from all_answer (detector Config.defaults)
                      (length (Py.calls Scripted.world0))
                      Scripted.three_transactions)).
  { rewrite Hout. repeat constructor; eexists; reflexivity. }
  split; [exact Hall|].
  destruct (@batch_without_failure_lines_up_with_input Config.defaults
              all_answer Scripted.three_transactions Scripted.world0 Hall)
    as (detections & w' & Hrun & Hids & _).
  exists detections, w'. split; [exact Hrun|]. split; [exact Hids|].
  rewrite (@batch_run Config.defaults all_answer) in Hrun. cbv zeta in Hrun.
  rewrite Hout in Hrun. injection Hrun as <- _. reflexivity.
Defined.
End BatchAccountingRuns.


(** ** The endpoints of python-ml *)

Section EndpointFacts.
Import Models.
Context `{O : Py.Outside}.

Ltac run_handler :=
  unfold Endpoints.try_or_500, mbind, mret, Py.M_bind, Py.M_ret, Py.bind,
    Py.ret, Py.logger_info, Py.logger_error, Py.logger, endpoint_log.

(** X24.  The anomaly endpoint never answers with an HTTP error: for every
    transaction and history it returns the detector's result, and makes no
    provider call. *)
Theorem anomaly_endpoint_never_fails :
  forall detector tx (hist : list R) w,
  exists r w',
    Endpoints.detect_anomaly detector tx hist w = (inr r, w') /\
    fst (Anomaly.detect detector tx hist w) = inr r /\
    Py.calls w' = Py.calls w.
Proof.
  intros detector tx hist w. unfold Endpoints.detect_anomaly. run_handler.
  destruct (Nat.lt_ge_cases (length hist) 3) as [Hshort | Hlong].
  - rewrite !detect_insufficient by exact Hshort.
    eexists _, _. repeat split.
  - destruct (Req_dec_T (Stats.np_std hist) 0) as [Hz | Hnz].
    + rewrite !detect_zero_std by assumption. eexists _, _. repeat split.
    + rewrite !detect_zscore by assumption. eexists _, _. repeat split.
Qed.

(** X25.  The merchant endpoint turns every failure of the detection into
    an HTTP error 500 whose detail is the exception, after the detector
    logged "merchant_detection_failed" and the endpoint
    "merchant_detection_error"; a successful detection is returned as it
    is. *)
Theorem merchant_endpoint_maps_failure_to_500 :
  forall detector tx w,
    let outcome :=
      answer_outcome detector tx
        (Py.llm (length (Py.calls w)) (request detector tx)) in
    Endpoints.detect_merchant detector tx w =
      (match outcome with
       | inr r => inr r
       | inl e => inl (Endpoints.mkHTTP 500 e)
       end,
       Py.mkWorld
         (Py.calls w ++ [request detector tx])
         (Py.log w ++
          endpoint_log Py.info "merchant_detection_request" tx None
            :: detect_log tx outcome
            ++ [ match outcome with
                 | inr _ =>
                     endpoint_log Py.info "merchant_detection_success" tx None
                 | inl e =>
                     endpoint_log Py.error "merchant_detection_error" tx
                                  (Some e)
                 end ])).
Proof.
  intros detector tx w outcome.
  unfold Endpoints.detect_merchant. run_handler.
  rewrite detect_outcome. cbv zeta. cbn [Py.calls Py.log]. fold outcome.
  destruct outcome as [e | r]; cbn [snd Py.calls Py.log detect_log app];
    rewrite <- !List.app_assoc; reflexivity.
Qed.

(** X26.  The category endpoint answers a merchant of the rule table
    without the provider, and turns a failure of the fallback into an HTTP
    error 500 whose detail is the exception; that failure is logged by the
    endpoint only ("category_detection_error"). *)
Theorem category_endpoint_rule_or_500 :
  forall detector tx (merchant : string) w,
    (forall rule,
        Category.CATEGORY_RULES !! merchant = Some rule ->
        exists r w',
          Endpoints.detect_category detector tx merchant w = (inr r, w') /\
          CategoryDetection.category r = Category.Rule.category rule /\
          CategoryDetection.method r = Method.rule /\
          Py.calls w' = Py.calls w) /\
    (forall e,
        Category.CATEGORY_RULES !! merchant = None ->
        category_answer_outcome detector tx
          (Py.llm (length (Py.calls w))
                  (category_request detector tx merchant)) = inl e ->
        Endpoints.detect_category detector tx merchant w =
          (inl (Endpoints.mkHTTP 500 e),
           Py.mkWorld
             (Py.calls w ++ [category_request detector tx merchant])
             (Py.log w ++
              [ endpoint_log Py.info "category_detection_request" tx None;
                category_log "category_detection_started" tx;
                category_log "category_detection_llm_fallback" tx;
                endpoint_log Py.error "category_detection_error" tx
                             (Some e) ]))).
Proof.
  intros detector tx merchant w. split.
  - intros rule Hhit.
    destruct (category_rules_entries merchant rule Hhit) as [_ Hb].
    unfold Endpoints.detect_category. run_handler.
    rewrite (detect_rule_hit detector tx merchant rule _ Hhit) by lra.
    eexists _, _. repeat split.
  - intros e Hmiss Hfail.
    unfold Endpoints.detect_category. run_handler.
    rewrite detect_fallback_outcome by exact Hmiss.
    cbn [Py.calls Py.log]. rewrite Hfail. cbn [snd Py.calls Py.log].
    rewrite <- !List.app_assoc. reflexivity.
Qed.
End EndpointFacts.

Section HealthFacts.
Import Endpoints.

(** X27.  The health endpoint reports "healthy" exactly when at least one
    of the two provider keys is set, whichever provider is active, and
    "degraded" otherwise; it never reports "unhealthy", and
    [llm_available] says the same as the status. *)
Theorem health_is_healthy_iff_some_key_is_set :
  forall (settings : Config.Settings) (now : string),
    let r := health_check settings now in
    (HealthResponse.status r = HealthResponse.healthy <->
     Config.openai_api_key settings <> EmptyString \/
     Config.anthropic_api_key settings <> EmptyString) /\
    (HealthResponse.status r = HealthResponse.degraded <->
     Config.openai_api_key settings = EmptyString /\
     Config.anthropic_api_key settings = EmptyString) /\
    HealthResponse.status r <> HealthResponse.unhealthy /\
    (HealthResponse.llm_available r = true <->
     HealthResponse.status r = HealthResponse.healthy) /\
    HealthResponse.llm_provider r = Config.llm_provider settings.
Proof.
  intros settings now. unfold health_check, truthy, str_or.
  cbn [HealthResponse.status HealthResponse.llm_available
         HealthResponse.llm_provider].
  destruct (Config.openai_api_key settings) as [|a s];
    destruct (Config.anthropic_api_key settings) as [|b t];
    cbn [PyStr.is_empty negb];
    repeat split; intros; try discriminate; try reflexivity;
      try tauto; try (left; discriminate); try (right; discriminate);
      intuition discriminate.
Qed.
End HealthFacts.

Section EndpointRuns.
Import Models.

Lemma category_endpoint_rule_or_500_witness :
  let tx := Scripted.tx "tx-1" "NETFLIX.COM" 15.99 in
  let detector := Category.init Config.defaults in
  Category.CATEGORY_RULES !! "netflix" = None /\
  fst (@Endpoints.detect_category Scripted.provider_down detector tx
         "netflix" Scripted.world0)
    = inl (Endpoints.mkHTTP 500 (Py.APIError "connection refused")).
Proof.
  intros tx detector.
  assert (Hmiss : Category.CATEGORY_RULES !! "netflix" = None) by reflexivity.
  split; [exact Hmiss|].
  rewrite (proj2 (@category_endpoint_rule_or_500 Scripted.provider_down
                    detector tx "netflix" Scripted.world0)
             (Py.APIError "connection refused") Hmiss eq_refl).
  reflexivity.
Defined.
End EndpointRuns.
